(** * Interactive dose-response fitting: the numeric core and the parameter store

    A shallow embedding of the React component of this repository, in its two
    copies:

    - [src/src/App.jsx]      (module [AppJsx]);
    - [src/unnamed/part_000] (module [Part000]).

    JavaScript numbers are IEEE 754 binary64 values, so they are modelled by
    Rocq's primitive floats, which compute with the same arithmetic.  Objects
    used as dictionaries (parameter values, the per-model store) are [gmap]s
    keyed by strings; static object literals whose key order is observable
    ([models], [params]) are association lists; arrays are lists.  The
    transcendental functions of the host ([Math.pow], [Math.log10]) are not
    part of the source: they are the two fields of the class [MathLib].

    The component's state is the pair of its [useState] cells, and the events
    are the handlers its controls fire.  The display strings ([eq], [fmt]) and
    the JSX markup are not modelled. *)

From Stdlib Require Import Floats ZArith Lia Ascii DecimalString.
From stdpp Require Import gmap strings list fin_maps.

Set Warnings "-inexact-float".
Set Default Proof Using "Type".

Open Scope float_scope.

(** ** The host: ECMAScript numbers and [Math] *)

(** [Math.pow] and [Math.log10] are implementation-approximated by the
    language standard, so they stay abstract. *)
Class MathLib := {
  Math_pow : float → float → float;
  Math_log10 : float → float
}.

(** [ToNumber] on the result of a property read: a missing property reads as
    [undefined], which converts to [NaN]. *)
Definition num (o : option float) : float := default nan o.

(** The nullish coalescing operator [a ?? b] on a possibly missing number. *)
Definition nullish (o : option float) (b : float) : float := default b o.

(** The number an array index converts to (exact below 2^53). *)
Definition of_index (i : nat) : float := of_uint63 (Uint63.of_Z (Z.of_nat i)).

(** [Math.max] (ECMA-262): [NaN] if an argument is [NaN]; else a
    scan from [-Infinity] in which [+0] beats [-0]. *)
Definition max_step (highest number : float) : float :=
  if Leibniz.eqb number 0 && Leibniz.eqb highest (-0) then 0
  else if highest <? number then number else highest.

Definition Math_max (args : list float) : float :=
  if existsb is_nan args then nan else foldl max_step neg_infinity args.

(** [Math.min] (ECMA-262), symmetrically: [-0] beats [+0]. *)
Definition min_step (lowest number : float) : float :=
  if Leibniz.eqb number (-0) && Leibniz.eqb lowest 0 then -0
  else if number <? lowest then number else lowest.

Definition Math_min (args : list float) : float :=
  if existsb is_nan args then nan else foldl min_step infinity args.

(** [Array.prototype.reduce] with its index argument and an initial value. *)
Fixpoint reduce_from {A B : Type} (f : B → A → nat → B) (i : nat) (acc : B)
    (l : list A) : B :=
  match l with
  | [] => acc
  | a :: l' => reduce_from f (S i) (f acc a i) l'
  end.

Definition reduce {A B : Type} (f : B → A → nat → B) (init : B) (l : list A) : B :=
  reduce_from f 0 init l.

(** [Array.from({ length: n }, (_, i) => f i)]. *)
Definition Array_from {A : Type} (n : nat) (f : nat → A) : list A :=
  f <$> seq 0 n.

(** Lookup in an object literal kept as an association list. *)
Fixpoint prop {A : Type} (k : string) (o : list (string * A)) : option A :=
  match o with
  | [] => None
  | (k', v) :: o' => if String.eqb k k' then Some v else prop k o'
  end.

(** A reference host, to run the definitions on concrete inputs: the special
    cases that ECMA-262 fixes for [Math.pow] together with the exponents [1]
    and [2], and [Math.log10] on the decades from [0.001] to [1000]. *)
Definition pow_ref (b e : float) : float :=
  if is_nan e then nan
  else if e =? 0 then 1
  else if is_nan b then nan
  else if Leibniz.eqb b 0 then (if 0 <? e then 0 else infinity)
  else if e =? 1 then b
  else if e =? 2 then b * b
  else nan.

Definition log10_ref (v : float) : float :=
  if v =? 0.001 then -3
  else if v =? 0.01 then -2
  else if v =? 0.1 then -1
  else if v =? 1 then 0
  else if v =? 10 then 1
  else if v =? 100 then 2
  else if v =? 1000 then 3
  else nan.

Definition ref_host : MathLib :=
  {| Math_pow := pow_ref; Math_log10 := log10_ref |}.

(** ** Code shared verbatim by the two copies *)

Record Point := mkPoint { x : float; y : float }.

Record ParamSpec := mkParam {
  label : string;
  min : float;
  max : float;
  step : float;
  defaultValue : float
}.

Record Model := mkModel {
  id : string;
  params : list (string * ParamSpec);
  fn : float → gmap string float → float
}.

Definition DOSES : list float := [0.5; 1; 2; 3].

Definition LOG_OFFSET : float := 0.001.

Section Shared.
Context `{MathLib}.

Definition emaxPred (d : float) (p : gmap string float) : float :=
  let num_ := num (p !! "Emax") * Math_pow d (num (p !! "h")) in
  let den := Math_pow (num (p !! "ED50")) (num (p !! "h"))
             + Math_pow d (num (p !! "h")) in
  let drop := if 0 <? den then num_ / den else 0 in
  num (p !! "E0") - drop.

Definition rss (obs pred : list float) : float :=
  reduce (λ acc y_ i, acc + Math_pow (y_ - nullish (pred !! i) 0) 2) 0 obs.

Definition clampResponse (y_ : float) : float :=
  Math_max [0; Math_min [120; y_]].

(** [Object.fromEntries(Object.entries(cfg.params).map(([k, v]) =>
    [k, v.defaultValue]))]. *)
Definition defaults_of (ps : list (string * ParamSpec)) : gmap string float :=
  list_to_map ((λ kv, (kv.1, defaultValue kv.2)) <$> ps).

End Shared.

(** ** [src/src/App.jsx] *)

Module AppJsx.
Section WithHost.
Context `{MathLib}.

(** Synthetic reference data generated from an inhibitory Emax model. *)
Definition SYNTH : gmap string float :=
  list_to_map [("E0", 100); ("Emax", 80); ("ED50", 0.01); ("h", 1)].

Definition demoData : list Point :=
  (λ d, mkPoint d (emaxPred d SYNTH)) <$> DOSES.

Definition Linear : Model := {|
  id := "Linear";
  params :=
    [("a", mkParam "Intercept a" 0 120 0.5 100);
     ("b", mkParam "Slope b" (-200) 50 0.5 (-30))];
  fn := λ x_ p, num (p !! "a") + num (p !! "b") * x_
|}.

Definition LogLinear : Model := {|
  id := "Log-linear";
  params :=
    [("a", mkParam "Intercept a" 0 120 0.5 100);
     ("b", mkParam "Slope b" (-200) 50 0.5 (-60))];
  fn := λ x_ p, num (p !! "a") + num (p !! "b") * Math_log10 (x_ + LOG_OFFSET)
|}.

Definition Emax : Model := {|
  id := "Emax";
  params :=
    [("E0", mkParam "Baseline E0" 50 120 0.5 100);
     ("Emax", mkParam "Max drop Emax" 0 100 0.5 60);
     ("ED50", mkParam "ED50" 0.001 3 0.001 0.5);
     ("h", mkParam "Hill h" 0.2 4 0.05 1.0)];
  fn := λ x_ p,
    let num_ := num (p !! "Emax") * Math_pow x_ (num (p !! "h")) in
    let den := Math_pow (num (p !! "ED50")) (num (p !! "h"))
               + Math_pow x_ (num (p !! "h")) in
    let inh := if 0 <? den then num_ / den else 0 in
    num (p !! "E0") - inh
|}.

Definition models : list (string * Model) :=
  [("Linear", Linear); ("Log-linear", LogLinear); ("Emax", Emax)].

(** The two state cells of the mounted [App] component: [modelKey] (the
    [useState] of [App]) and [state] (the [useState] inside
    [useModelState]).  React keeps a cell between renders; the argument of
    [useState] is read when the component mounts and ignored afterwards. *)
Record Hooks := mkHooks {
  modelKey : string;
  state : gmap string float
}.

(** The first render: [useState('Emax')], then [useState(defaults)] with
    the defaults of [models['Emax']]. *)
Definition mount : Hooks :=
  mkHooks "Emax" (defaults_of (params Emax)).

(** What one call of [useModelState modelKey] hands to the render: the
    configuration and the parameters.  An unregistered key makes
    [cfg.params] throw ([None]). *)
Definition useModelState (hk : Hooks) : option (Model * gmap string float) :=
  cfg ← prop (modelKey hk) models;
  Some (cfg, state hk).

(** The handlers of one render.  They are closures of a render that
    succeeded: [update] and [reset] come from [useModelState], and [reset]
    reads the [defaults] of the model selected in that render. *)
Inductive Event :=
| EvSetModelKey (k : string)
| EvUpdate (k : string) (val : float)
| EvReset.

Definition update (k : string) (val : float) (s : gmap string float) :
    gmap string float :=
  <[k := val]> s.

Definition handle (hk : Hooks) (ev : Event) : option Hooks :=
  '(cfg, _) ← useModelState hk;
  Some match ev with
       | EvSetModelKey k => mkHooks k (state hk)
       | EvUpdate k val => mkHooks (modelKey hk) (update k val (state hk))
       | EvReset => mkHooks (modelKey hk) (defaults_of (params cfg))
       end.

Fixpoint run (hk : Hooks) (evs : list Event) : option Hooks :=
  match evs with
  | [] => Some hk
  | ev :: evs' => hk' ← handle hk ev; run hk' evs'
  end.

(** The parameters the store hands out for variant [v]: those the render
    receives once [v] is the selected model. *)
Definition get (v : string) (hk : Hooks) : option (gmap string float) :=
  snd <$> useModelState (mkHooks v (state hk)).

(** The memoised values of one render. *)
Definition xs : list float := Array_from 321 (λ i, of_index i * 0.01).

Definition curve (hk : Hooks) : option (list Point) :=
  '(cfg, ps) ← useModelState hk;
  Some ((λ x_, mkPoint x_ (clampResponse (fn cfg x_ ps))) <$> xs).

Definition preds (hk : Hooks) : option (list float) :=
  '(cfg, ps) ← useModelState hk;
  Some ((λ d, fn cfg (x d) ps) <$> demoData).

Definition rssVal (hk : Hooks) : option float :=
  rss (y <$> demoData) <$> preds hk.

End WithHost.
End AppJsx.

(** ** [src/unnamed/part_000] *)

Module Part000.
Section WithHost.
Context `{MathLib}.

(** Synthetic reference data generated from an inhibitory Emax model. *)
Definition SYNTH : gmap string float :=
  list_to_map [("E0", 100); ("Emax", 80); ("ED50", 1); ("h", 1)].

Definition demoData : list Point :=
  (λ d, mkPoint d (emaxPred d SYNTH)) <$> DOSES.

Definition Linear : Model := {|
  id := "Linear";
  params := [("b", mkParam "Slope b" (-200) 50 0.5 (-20))];
  fn := λ x_ p, 100 + num (p !! "b") * x_
|}.

Definition LogLinear : Model := {|
  id := "Log-linear";
  params := [("b", mkParam "Slope b" (-200) 50 0.5 (-50))];
  fn := λ x_ p,
    100 + num (p !! "b") * (Math_log10 (x_ + LOG_OFFSET) - Math_log10 LOG_OFFSET)
|}.

Definition Emax : Model := {|
  id := "Emax";
  params :=
    [("Emax", mkParam "Emax" 0 100 0.5 70);
     ("ED50", mkParam "ED50" 0.001 3 0.001 1.5);
     ("h", mkParam "Hill h" 0.2 4 0.05 1.5)];
  fn := λ x_ p,
    let num_ := num (p !! "Emax") * Math_pow x_ (num (p !! "h")) in
    let den := Math_pow (num (p !! "ED50")) (num (p !! "h"))
               + Math_pow x_ (num (p !! "h")) in
    let inh := if 0 <? den then num_ / den else 0 in
    100 - inh
|}.

Definition models : list (string * Model) :=
  [("Linear", Linear); ("Log-linear", LogLinear); ("Emax", Emax)].

(** The two state cells of the mounted [App] component: [modelKey] and the
    [stateByModel] of [useModelState], one parameter object per model. *)
Record Hooks := mkHooks {
  modelKey : string;
  stateByModel : gmap string (gmap string float)
}.

(** The lazy initialiser of [stateByModel]: a [forEach] over
    [Object.keys(models)] that assigns each model its defaults. *)
Definition initial : gmap string (gmap string float) :=
  foldl (λ ini kv, <[kv.1 := defaults_of (params kv.2)]> ini) ∅ models.

Definition mount : Hooks := mkHooks "Linear" initial.

(** What one call of [useModelState modelKey] hands to the render.  An
    unregistered key makes [cfg.params] throw, and a model without an entry
    in the store makes the first property read of [params] throw ([None]). *)
Definition useModelState (hk : Hooks) : option (Model * gmap string float) :=
  cfg ← prop (modelKey hk) models;
  ps ← stateByModel hk !! modelKey hk;
  Some (cfg, ps).

(** The handlers of one render.  [reset] is returned by [useModelState], but
    no control of this copy fires it. *)
Inductive Event :=
| EvSetModelKey (k : string)
| EvUpdate (k : string) (val : float)
| EvReset.

(** [(s) => ({ ...s, [modelKey]: { ...s[modelKey], [k]: val } })]; spreading
    a missing entry spreads nothing. *)
Definition update (mk k : string) (val : float)
    (s : gmap string (gmap string float)) : gmap string (gmap string float) :=
  <[mk := <[k := val]> (default ∅ (s !! mk))]> s.

Definition handle (hk : Hooks) (ev : Event) : option Hooks :=
  '(cfg, _) ← useModelState hk;
  Some match ev with
       | EvSetModelKey k => mkHooks k (stateByModel hk)
       | EvUpdate k val =>
           mkHooks (modelKey hk) (update (modelKey hk) k val (stateByModel hk))
       | EvReset =>
           mkHooks (modelKey hk)
             (<[modelKey hk := defaults_of (params cfg)]> (stateByModel hk))
       end.

Fixpoint run (hk : Hooks) (evs : list Event) : option Hooks :=
  match evs with
  | [] => Some hk
  | ev :: evs' => hk' ← handle hk ev; run hk' evs'
  end.

(** The parameters the store hands out for variant [v]: those the render
    receives once [v] is the selected model. *)
Definition get (v : string) (hk : Hooks) : option (gmap string float) :=
  snd <$> useModelState (mkHooks v (stateByModel hk)).

(** A sequence of events, starting while [mk] is selected, that fires no
    [update] and no [reset] while [v] is the selected model. *)
Fixpoint leaves_alone (v mk : string) (evs : list Event) : Prop :=
  match evs with
  | [] => True
  | EvSetModelKey k :: evs' => leaves_alone v k evs'
  | _ :: evs' => mk ≠ v ∧ leaves_alone v mk evs'
  end.

(** The memoised values of one render. *)
Definition xs : list float := Array_from 501 (λ i, of_index i * 0.01).

Definition curve (hk : Hooks) : option (list Point) :=
  '(cfg, ps) ← useModelState hk;
  Some ((λ x_, mkPoint x_ (clampResponse (fn cfg x_ ps))) <$> xs).

Definition preds (hk : Hooks) : option (list float) :=
  '(cfg, ps) ← useModelState hk;
  Some ((λ d, fn cfg (x d) ps) <$> demoData).

Definition rssVal (hk : Hooks) : option float :=
  rss (y <$> demoData) <$> preds hk.

End WithHost.
End Part000.

(** ** Specification-side definitions *)

(** The sum the specification names, written out on its own: the terms
    [(observed[i] - predicted[i])^2] for the indices of [observed], added from
    left to right starting at [0]; a prediction that is missing counts as
    [0]. *)
Definition pad_zero (n : nat) (pred : list float) : list float :=
  pred ++ replicate (n - length pred) 0.

Definition sum_left (terms : list float) : float := foldl PrimFloat.add 0 terms.

Definition computeRSS `{MathLib} (observed predicted : list float) : float :=
  sum_left (zip_with (λ o p, Math_pow (o - p) 2) observed
              (pad_zero (length observed) predicted)).

(** The Emax formula of the specification: [E0 - (Emax * x^h) / (ED50^h + x^h)],
    with the inhibition term taken as [0] where the denominator is [0]. *)
Definition emax_formula `{MathLib} (E0 Emax_ ED50 h x_ : float) : float :=
  let den := Math_pow ED50 h + Math_pow x_ h in
  if den =? 0 then E0 else E0 - (Emax_ * Math_pow x_ h) / den.

(** The log-linear formula of the specification: [a + b * log10(x + eps)]. *)
Definition loglinear_formula `{MathLib} (a b eps x_ : float) : float :=
  a + b * Math_log10 (x_ + eps).

(** A decoded binary64 value that is a number and is not below zero. *)
Definition SFnonneg (f : spec_float) : Prop :=
  match f with
  | S754_zero _ => True
  | S754_infinity s | S754_finite s _ _ => s = false
  | S754_nan => False
  end.

(** ** Sample inputs *)

(** The default parameters of the Emax variant of [App.jsx]. *)
Definition sample_Emax_params : gmap string float :=
  list_to_map [("E0", 100); ("Emax", 60); ("ED50", 0.5); ("h", 1)].

(** Log-linear parameters that name an intercept [a] beside the slope [b]. *)
Definition sample_LogLinear_params : gmap string float :=
  list_to_map [("a", 100); ("b", -50)].

(** ** What the render shows *)

(** A plotted point carries the clamped response of the evaluator at its dose;
    on a raw response that is a number the clamp lands in [[0, 120]]. *)
Definition clamped_point (cfg : Model) (ps : gmap string float) (pt : Point) : Prop :=
  y pt = clampResponse (fn cfg (x pt) ps)
  ∧ (is_nan (fn cfg (x pt) ps) = false →
     (0 <=? y pt) = true ∧ (y pt <=? 120) = true).

(** The predictions are the raw responses of the evaluator at the observed
    doses. *)
Definition raw_predictions (cfg : Model) (ps : gmap string float) : list float :=
  (λ d, fn cfg d ps) <$> DOSES.

(** A steep line: the slope at the lower bound of its slider. *)
Definition steep_Linear : Part000.Hooks :=
  Part000.mkHooks "Linear" (<["Linear" := {["b" := -200]}]> ∅).

(** ** The decimal grid *)

(** The grid point [i / 100] as a number: the quotient of two exactly
    represented integers, so the binary64 value nearest to the decimal. *)
Definition grid_point (i : nat) : float := of_index i / 100.

(** [v] is the grid point of index [i] or one of the two binary64 values next
    to it. *)
Definition near_grid (i : nat) (v : float) : bool :=
  Leibniz.eqb v (grid_point i)
  || Leibniz.eqb v (next_up (grid_point i))
  || Leibniz.eqb v (next_down (grid_point i)).

Fixpoint increasing (l : list float) : bool :=
  match l with
  | a :: (b :: _) as l' => (a <? b) && increasing l'
  | _ => true
  end.

(** The indices whose sample is not the grid point itself. *)
Definition off_grid (l : list float) : list nat :=
  (List.filter (λ iv : nat * float, negb (Leibniz.eqb iv.2 (grid_point iv.1)))
     (imap (λ i v, (i, v)) l)).*1.

(** ** Proof automation *)

(** Two numbers that a computation tells apart are different. *)
Ltac float_discr E :=
  apply FloatAxioms.Leibniz.eqb_spec in E; vm_compute in E; discriminate E.

(** ** Well-formed events and stores *)

(** An event the controls can fire: the selector offers the registered
    models only. *)
Definition AppJsx_registered `{MathLib} (ev : AppJsx.Event) : Prop :=
  match ev with
  | AppJsx.EvSetModelKey k => is_Some (prop k AppJsx.models)
  | _ => True
  end.

Definition Part000_registered `{MathLib} (ev : Part000.Event) : Prop :=
  match ev with
  | Part000.EvSetModelKey k => is_Some (prop k Part000.models)
  | _ => True
  end.

(** A parameter object in which every parameter of the schema of [cfg] has a
    value. *)
Definition schema_present (cfg : Model) (ps : gmap string float) : Prop :=
  ∀ n spec, prop n (params cfg) = Some spec → is_Some (ps !! n).

(** A store that holds, for every registered model, an object with all the
    parameters of that model. *)
Definition Part000_complete `{MathLib} (s : gmap string (gmap string float)) : Prop :=
  ∀ k cfg, prop k Part000.models = Some cfg →
           ∃ ps, s !! k = Some ps ∧ schema_present cfg ps.

(** The slider of a parameter is well formed: its default lies between its
    bounds and its step is positive. *)
Definition slider_ok (spec : ParamSpec) : bool :=
  (min spec <=? defaultValue spec) && (defaultValue spec <=? max spec)
  && (0 <? step spec).

(** ** Display: [fmt] and [Number.prototype.toFixed] *)

(** [Number::toString] in radix 10 for a finite number of magnitude [10^21] or
    more, where [toFixed] falls back on it: host code, left abstract. *)
Class NumberLib := {
  Number_toString : float → string
}.

(** The magnitude of a finite number as an exact fraction, numerator and
    denominator, the denominator a power of two. *)
Definition exact_magnitude (v : float) : Z * Z :=
  match Prim2SF v with
  | S754_finite _ m e => (Z.pos m * 2 ^ Z.max e 0, 2 ^ Z.max (- e) 0)%Z
  | _ => (0, 1)%Z
  end.

(** The integer [n] for which [n / 10^f] is nearest to the magnitude of [v],
    the larger one in a tie (ECMA-262, [toFixed], step 11.a). *)
Definition nearest_scaled (v : float) (f : nat) : N :=
  Z.to_N ((2 * (exact_magnitude v).1 * 10 ^ Z.of_nat f + (exact_magnitude v).2)
          / (2 * (exact_magnitude v).2)).

(** The decimal digits of [n], with no leading zero, ["0"] for zero. *)
Definition digits_of (n : N) : list ascii :=
  String.list_ascii_of_string (NilZero.string_of_uint (N.to_uint n)).

(** Steps 11.c of [toFixed]: pad with zeros up to [f + 1] digits and put the
    point before the last [f]. *)
Definition point_at (f : nat) (m : list ascii) : list ascii :=
  if decide (f = 0%nat) then m
  else
    let m' := if decide (length m ≤ f)%nat
              then replicate (f + 1 - length m) "0"%char ++ m else m in
    take (length m' - f) m' ++ "."%char :: drop (length m' - f) m'.

(** [Number.prototype.toFixed] (ECMA-262): a [RangeError] ([None]) for more
    than 100 digits; the names of the values that are not finite; the host's
    string from [10^21] on; else the sign, the digits of the nearest scaled
    integer and the point. *)
Definition toFixed `{NumberLib} (v : float) (f : nat) : option string :=
  if decide (100 < f)%nat then None
  else Some
    (if is_nan v then "NaN"
     else if is_infinity v then (if v <? 0 then "-Infinity" else "Infinity")
     else
       let s := if v <? 0 then "-" else "" in
       if 1e21 <=? abs v then String.append s (Number_toString (abs v))
       else String.append s
              (String.string_of_list_ascii
                 (point_at f (digits_of (nearest_scaled v f))))).

(** [fmt(x, digits = 2)]: [Number(x).toFixed(digits)]; a missing [x] converts
    to [NaN], a missing [digits] is [2]. *)
Definition fmt `{NumberLib} (v : option float) (digits : option nat) :
    option string :=
  toFixed (num v) (default 2%nat digits).

Definition is_decimal_digit (c : ascii) : bool :=
  (48 <=? nat_of_ascii c)%nat && (nat_of_ascii c <=? 57)%nat.

(** A host for running [fmt] on numbers below [10^21] in magnitude, where
    [Number_toString] is not reached. *)
Definition small_numbers_host : NumberLib :=
  {| Number_toString := λ _, "" |}.


(** * Properties *)

(** ** Facts about binary64 comparison and arithmetic

    Derived from the specification of the primitive operations
    ([FloatAxioms]) by cases on the decoded operands. *)

Section FloatFacts.

Lemma SFcompare_refl (f : spec_float) :
  f ≠ S754_nan → SFcompare f f = Some Eq.
Proof.
  destruct f as [s|s| |s m e]; try done; intros _; simpl.
  - by destruct s.
  - rewrite Z.compare_refl.
    replace (PosDef.Pos.compare_cont Eq m m) with (Pos.compare m m)
      by reflexivity.
    rewrite Pos.compare_refl. by destruct s.
Qed.

Lemma ltb_leb (a b : float) : (a <? b) = true → (a <=? b) = true.
Proof.
  rewrite FloatAxioms.ltb_spec, FloatAxioms.leb_spec. unfold SFltb, SFleb.
  by destruct (SFcompare (Prim2SF a) (Prim2SF b)) as [[]|].
Qed.

Lemma ltb_not_nan_l (a b : float) : (a <? b) = true → is_nan a = false.
Proof.
  unfold is_nan. rewrite FloatAxioms.ltb_spec, FloatAxioms.eqb_spec.
  unfold SFltb, SFeqb. intros Hab.
  rewrite SFcompare_refl; [done|].
  intros Ha. by rewrite Ha in Hab.
Qed.

Lemma ltb_not_nan_r (a b : float) : (a <? b) = true → is_nan b = false.
Proof.
  unfold is_nan. rewrite FloatAxioms.ltb_spec, FloatAxioms.eqb_spec.
  unfold SFltb, SFeqb. intros Hab.
  rewrite SFcompare_refl; [done|].
  intros Hb. rewrite Hb in Hab. by destruct (Prim2SF a).
Qed.

Lemma leb_not_nan_r (a b : float) : (a <=? b) = true → is_nan b = false.
Proof.
  unfold is_nan. rewrite FloatAxioms.leb_spec, FloatAxioms.eqb_spec.
  unfold SFleb, SFeqb. intros Hab.
  rewrite SFcompare_refl; [done|].
  intros Hb. rewrite Hb in Hab. by destruct (Prim2SF a).
Qed.

(** Above zero or equal to it: the two ways of being non-negative. *)
Lemma leb_zero_cases (d : float) :
  (0 <=? d) = true → (0 <? d) = negb (d =? 0).
Proof.
  rewrite FloatAxioms.leb_spec, FloatAxioms.ltb_spec, FloatAxioms.eqb_spec.
  unfold SFleb, SFltb, SFeqb.
  replace (Prim2SF 0) with (S754_zero false) by reflexivity.
  destruct (Prim2SF d) as [s|s| |s m e]; try done; by destruct s.
Qed.

Lemma sub_zero_r (a : float) : a - 0 = a.
Proof.
  apply Prim2SF_inj. rewrite FloatAxioms.sub_spec.
  replace (Prim2SF 0) with (S754_zero false) by reflexivity.
  destruct (Prim2SF a) as [s|s| |s m e]; try done; by destruct s.
Qed.

Lemma zero_div_pos (d : float) : (0 <? d) = true → 0 / d = 0.
Proof.
  rewrite FloatAxioms.ltb_spec. intros Hd.
  apply Prim2SF_inj. rewrite FloatAxioms.div_spec. revert Hd.
  replace (Prim2SF 0) with (S754_zero false) by reflexivity.
  unfold SFltb.
  destruct (Prim2SF d) as [s|s| |s m e]; try done; by destruct s.
Qed.

(** A finite number minus itself is [+0] (round to nearest). *)
Lemma sub_diag_finite (a : float) : is_finite a = true → a - a = 0.
Proof.
  unfold is_finite, is_nan, is_infinity.
  rewrite !FloatAxioms.eqb_spec, FloatAxioms.abs_spec. intros Hfin.
  apply Prim2SF_inj. rewrite FloatAxioms.sub_spec. revert Hfin.
  replace (Prim2SF infinity) with (S754_infinity false) by reflexivity.
  replace (Prim2SF 0) with (S754_zero false) by reflexivity.
  destruct (Prim2SF a) as [s|s| |s m e]; intros Hfin.
  - by destruct s.
  - by destruct s.
  - done.
  - unfold SF64sub, SFsub. by rewrite Z.sub_diag.
Qed.

(** The sum of two non-negative numbers is a non-negative number: rounding
    keeps the sign. *)
Lemma leb_zero_SFnonneg (a : float) :
  (0 <=? a) = true ↔ SFnonneg (Prim2SF a).
Proof.
  rewrite FloatAxioms.leb_spec. unfold SFleb.
  replace (Prim2SF 0) with (S754_zero false) by reflexivity.
  destruct (Prim2SF a) as [s|s| |s m e]; simpl; try done; by destruct s.
Qed.

Lemma shr_1_nonneg (mrs : shr_record) :
  (0 ≤ shr_m mrs)%Z → (0 ≤ shr_m (shr_1 mrs))%Z.
Proof.
  destruct mrs as [m r s]. simpl.
  destruct m as [|[p|p|]|p]; simpl; lia.
Qed.

Lemma iter_pos_shr_1_nonneg (p : positive) :
  ∀ mrs, (0 ≤ shr_m mrs)%Z → (0 ≤ shr_m (@SpecFloat.iter_pos shr_record shr_1 p mrs))%Z.
Proof.
  induction p as [p IH|p IH|]; intros mrs Hm; simpl.
  - by apply IH, IH, shr_1_nonneg.
  - by apply IH, IH.
  - by apply shr_1_nonneg.
Qed.

Lemma shr_fexp_nonneg (m e : Z) (l : location) :
  (0 ≤ m)%Z → (0 ≤ shr_m (shr_fexp prec emax m e l).1)%Z.
Proof.
  intros Hm. unfold shr_fexp, shr.
  assert (H0 : (0 ≤ shr_m (shr_record_of_loc m l))%Z).
  { by destruct l as [|[]]. }
  destruct (_ - e)%Z; simpl; [done| |done].
  by apply iter_pos_shr_1_nonneg.
Qed.

Lemma round_nearest_even_nonneg (m : Z) (l : location) :
  (0 ≤ m)%Z → (0 ≤ round_nearest_even m l)%Z.
Proof.
  intros Hm. destruct l as [|[]]; simpl; try lia.
  destruct (Z.even m); lia.
Qed.

Lemma binary_round_aux_nonneg (m e : Z) (l : location) :
  (0 ≤ m)%Z → SFnonneg (binary_round_aux prec emax false m e l).
Proof.
  intros Hm. unfold binary_round_aux.
  pose proof (shr_fexp_nonneg m e l Hm) as H1.
  destruct (shr_fexp prec emax m e l) as [mrs' e']. simpl in H1.
  pose proof (shr_fexp_nonneg _ e' loc_Exact
                (round_nearest_even_nonneg _ (loc_of_shr_record mrs') H1)) as H2.
  destruct (shr_fexp prec emax _ e' loc_Exact) as [mrs'' e'']. simpl in H2.
  destruct (shr_m mrs'') as [|q|q]; simpl; [done| |lia].
  by destruct (_ <=? _)%Z.
Qed.

Lemma SFadd_nonneg (f g : spec_float) :
  SFnonneg f → SFnonneg g → SFnonneg (SF64add f g).
Proof.
  destruct f as [s|s| |s m e], g as [t|t| |t n k]; simpl; try done.
  - intros _ _. by destruct s, t.
  - intros -> ->. done.
  - intros -> ->. unfold SF64add, SFadd. cbn [cond_Zopp].
    set (u := (shl_align m e (Z.min e k)).1).
    set (v := (shl_align n k (Z.min e k)).1).
    replace (Z.pos u + Z.pos v)%Z with (Z.pos (u + v)) by lia.
    unfold binary_normalize, binary_round.
    destruct (shl_align (u + v) _ _) as [mz ez].
    by apply binary_round_aux_nonneg.
Qed.

Lemma add_nonneg (a b : float) :
  (0 <=? a) = true → (0 <=? b) = true → (0 <=? a + b) = true.
Proof.
  rewrite !leb_zero_SFnonneg, FloatAxioms.add_spec. apply SFadd_nonneg.
Qed.

(** [NaN] is absorbing for the four operations. *)
Lemma nan_absorbs (a : float) :
  nan + a = nan ∧ a + nan = nan ∧ nan - a = nan ∧ a - nan = nan
  ∧ nan * a = nan ∧ a * nan = nan ∧ nan / a = nan ∧ a / nan = nan.
Proof.
  split_and!; apply Prim2SF_inj;
    rewrite ?FloatAxioms.add_spec, ?FloatAxioms.sub_spec, ?FloatAxioms.mul_spec,
      ?FloatAxioms.div_spec;
    replace (Prim2SF nan) with S754_nan by reflexivity;
    by destruct (Prim2SF a).
Qed.

End FloatFacts.

(** ** [clampResponse] *)

Section Clamp.

(** On numbers, the scans of [Math.min] and [Math.max] come down to one
    comparison each. *)
Lemma Math_min_120 (v : float) :
  is_nan v = false → Math_min [120; v] = if v <? 120 then v else 120.
Proof.
  intros Hv. unfold Math_min. cbn [existsb foldl]. rewrite Hv.
  change (is_nan 120) with false. cbn [orb].
  change (min_step infinity 120) with 120. unfold min_step.
  change (Leibniz.eqb 120 0) with false. by rewrite andb_false_r.
Qed.

Lemma Math_max_0 (m : float) :
  is_nan m = false → Math_max [0; m] = if 0 <? m then m else 0.
Proof.
  intros Hm. unfold Math_max. cbn [existsb foldl]. rewrite Hm.
  change (is_nan 0) with false. cbn [orb].
  change (max_step neg_infinity 0) with 0. unfold max_step.
  change (Leibniz.eqb 0 (-0)) with false. by rewrite andb_false_r.
Qed.

Lemma clampResponse_number (v : float) :
  is_nan v = false →
  clampResponse v =
    let m := if v <? 120 then v else 120 in if 0 <? m then m else 0.
Proof.
  intros Hv. unfold clampResponse. rewrite Math_min_120 by done.
  apply Math_max_0. by destruct (v <? 120).
Qed.

Lemma clampResponse_nan (v : float) : is_nan v = true → clampResponse v = nan.
Proof.
  intros Hv. unfold clampResponse, Math_min, Math_max.
  cbn [existsb]. rewrite Hv, orb_true_r. reflexivity.
Qed.

Lemma clampResponse_range (v : float) :
  is_nan v = false →
  (0 <=? clampResponse v) = true ∧ (clampResponse v <=? 120) = true.
Proof.
  intros Hv. rewrite clampResponse_number by done. cbn zeta.
  destruct (v <? 120) eqn:Hhi.
  - destruct (0 <? v) eqn:Hlo; [|done].
    split; by apply ltb_leb.
  - done.
Qed.

Lemma clampResponse_idem (v : float) :
  clampResponse (clampResponse v) = clampResponse v.
Proof.
  destruct (is_nan v) eqn:Hv.
  { rewrite (clampResponse_nan v) by done. reflexivity. }
  rewrite (clampResponse_number v) by done. cbn zeta.
  destruct (v <? 120) eqn:Hhi.
  - destruct (0 <? v) eqn:Hlo; [|reflexivity].
    rewrite clampResponse_number by done. cbn zeta. by rewrite Hhi, Hlo.
  - reflexivity.
Qed.

(** C4: on every number [v] (every float but [NaN]), [clampResponse v] lies
    in the closed interval [[0, 120]], and [clampResponse] is idempotent. *)
Theorem clampResponse_bounded_idempotent (v : float) :
  is_nan v = false →
  (0 <=? clampResponse v) = true ∧ (clampResponse v <=? 120) = true
  ∧ clampResponse (clampResponse v) = clampResponse v.
Proof.
  intros Hv. destruct (clampResponse_range v Hv) as [Hlo Hhi].
  split_and!; [done..|]. apply clampResponse_idem.
Qed.

Lemma clampResponse_bounded_idempotent_witness :
  is_nan 150 = false
  ∧ (0 <=? clampResponse 150) = true ∧ (clampResponse 150 <=? 120) = true
  ∧ clampResponse (clampResponse 150) = clampResponse 150.
Proof.
  split; [reflexivity|].
  apply (clampResponse_bounded_idempotent 150). reflexivity.
Defined.

Example clampResponse_samples :
  clampResponse 150 = 120 ∧ clampResponse (-3.5) = 0
  ∧ clampResponse 42.25 = 42.25 ∧ clampResponse (-0) = 0
  ∧ clampResponse infinity = 120 ∧ clampResponse neg_infinity = 0
  ∧ clampResponse nan = nan.
Proof. by vm_compute. Qed.

End Clamp.

(** ** The residual sum of squares *)

Section RSS.
Context `{MathLib}.

Lemma reduce_from_ext {A B : Type} (f g : B → A → nat → B) (l : list A) :
  ∀ (i : nat) (acc : B),
    (∀ j a b, (i ≤ j < i + length l)%nat → f b a j = g b a j) →
    reduce_from f i acc l = reduce_from g i acc l.
Proof.
  induction l as [|a l IH]; intros i acc Hfg; [done|].
  cbn [reduce_from]. rewrite (Hfg i a acc) by (cbn [length]; lia).
  apply IH. intros j a' b Hj. apply Hfg. cbn [length]. lia.
Qed.

(** The scan of [reduce] from index [i], against the part of [pred] that
    is left from index [i] on. *)
Lemma rss_from_suffix (pred : list float) (obs : list float) :
  ∀ (i : nat) (acc : float) (q : list float),
    drop i pred = q →
    reduce_from (λ acc y_ j, acc + Math_pow (y_ - nullish (pred !! j) 0) 2)
      i acc obs
    = foldl PrimFloat.add acc
        (zip_with (λ o p, Math_pow (o - p) 2) obs (pad_zero (length obs) q)).
Proof.
  induction obs as [|o obs IH]; intros i acc q Hq; [done|].
  cbn [reduce_from]. rewrite (IH (S i) _ (drop 1 q)).
  2:{ rewrite <- Hq, drop_drop. f_equal. lia. }
  assert (Hi : pred !! i = q !! 0%nat).
  { rewrite <- Hq, lookup_drop. f_equal. lia. }
  rewrite Hi. unfold pad_zero. destruct q as [|p q]; cbn.
  - by rewrite Nat.sub_0_r.
  - by rewrite drop_0.
Qed.

(** C3: for all sequences [obs] and [pred], [rss obs pred] is the sum over
    the indices of [obs] of [(obs[i] - pred[i])^2], where a prediction
    missing because [pred] is shorter contributes as if it were [0]; the
    computation is total, so it does not fail. *)
Theorem rss_is_sum_of_squared_residuals (obs pred : list float) :
  rss obs pred = computeRSS obs pred
  ∧ rss obs pred = rss obs (pad_zero (length obs) pred).
Proof.
  assert (Hsum : ∀ q, rss obs q = computeRSS obs q).
  { intros q. unfold rss, reduce, computeRSS, sum_left.
    apply rss_from_suffix, drop_0. }
  split; [apply Hsum|].
  rewrite !Hsum. unfold computeRSS. do 2 f_equal.
  unfold pad_zero. rewrite length_app, length_replicate.
  replace (length obs - (length pred + (length obs - length pred)))%nat
    with 0%nat by lia.
  by rewrite app_nil_r.
Qed.

Lemma rss_nil (pred : list float) : rss [] pred = 0.
Proof. reflexivity. Qed.

Lemma rss_prefix (obs p1 p2 : list float) :
  (∀ i, (i < length obs)%nat → p1 !! i = p2 !! i) →
  rss obs p1 = rss obs p2.
Proof.
  intros Hagree. unfold rss, reduce. apply reduce_from_ext.
  intros j a b Hj. rewrite Hagree by lia. reflexivity.
Qed.

Lemma rss_take (obs pred : list float) :
  rss obs (take (length obs) pred) = rss obs pred.
Proof.
  apply rss_prefix. intros i Hi. by apply lookup_take_lt.
Qed.

(** C10: [rss] depends only on [obs] and on the entries of the predictions
    at the indices of [obs]: two prediction sequences that agree there give
    the same value, so predictions beyond the length of [obs] are ignored,
    and an empty [obs] gives [0] whatever the predictions. *)
Theorem rss_reads_only_observed_indices (obs p1 p2 : list float) :
  (∀ i, (i < length obs)%nat → p1 !! i = p2 !! i) →
  rss obs p1 = rss obs p2
  ∧ rss obs (take (length obs) p1) = rss obs p1
  ∧ rss [] p1 = 0.
Proof.
  intros Hagree. split_and!.
  - by apply rss_prefix.
  - apply rss_take.
  - apply rss_nil.
Qed.

End RSS.

Lemma rss_reads_only_observed_indices_witness :
  (∀ i, (i < length [100; 60])%nat →
        [90; 70; 5] !! i = ([90; 70] : list float) !! i)
  ∧ @rss ref_host [100; 60] [90; 70; 5] = @rss ref_host [100; 60] [90; 70]
  ∧ @rss ref_host [100; 60] (take (length [100; 60]) [90; 70; 5])
    = @rss ref_host [100; 60] [90; 70; 5]
  ∧ @rss ref_host [] [90; 70; 5] = 0.
Proof.
  assert (Hagree : ∀ i, (i < length [100; 60])%nat →
            [90; 70; 5] !! i = ([90; 70] : list float) !! i).
  { intros [|[|i]] Hi; [reflexivity..|]. cbn in Hi. lia. }
  split; [exact Hagree|].
  exact (@rss_reads_only_observed_indices ref_host [100; 60] [90; 70; 5]
           [90; 70] Hagree).
Defined.

Example rss_samples :
  @rss ref_host [100; 60] [90; 70] = 200
  ∧ @rss ref_host [100; 60] [90] = 3700
  ∧ @rss ref_host [100; 60] [] = 13600
  ∧ @rss ref_host [100; 60] [90; 70; 5] = 200.
Proof. by vm_compute. Qed.

(** ** The evaluators of the three model variants *)

Section Evaluators.
Context `{MathLib}.

(** The guard [den > 0] of the source and the guard [den = 0] of the formula
    select the same branch on a non-negative denominator. *)
Lemma emax_guard (E0 Emax_ ED50 h x_ : float) :
  (0 <=? Math_pow ED50 h + Math_pow x_ h) = true →
  (let num_ := Emax_ * Math_pow x_ h in
   let den := Math_pow ED50 h + Math_pow x_ h in
   let inh := if 0 <? den then num_ / den else 0 in
   E0 - inh) = emax_formula E0 Emax_ ED50 h x_.
Proof.
  intros Hden. unfold emax_formula. cbn zeta.
  rewrite (leb_zero_cases _ Hden).
  destruct (_ =? 0); cbn [negb]; [apply sub_zero_r|reflexivity].
Qed.


(** The same guard in [emaxPred], which generates the reference data. *)
Lemma emaxPred_formula (d : float) (p : gmap string float) :
  (0 <=? Math_pow (num (p !! "ED50")) (num (p !! "h"))
         + Math_pow d (num (p !! "h"))) = true →
  emaxPred d p
  = emax_formula (num (p !! "E0")) (num (p !! "Emax")) (num (p !! "ED50"))
      (num (p !! "h")) d.
Proof. intros Hden. unfold emaxPred. by apply emax_guard. Qed.

(** X23: whatever the denominator, the evaluator takes one of two values:
    the guard also catches a negative and a [NaN] denominator. *)
Lemma Emax_fn_branches (x_ : float) (p : gmap string float) :
  let den := Math_pow (num (p !! "ED50")) (num (p !! "h"))
             + Math_pow x_ (num (p !! "h")) in
  fn AppJsx.Emax x_ p
  = if 0 <? den
    then num (p !! "E0") - (num (p !! "Emax") * Math_pow x_ (num (p !! "h"))) / den
    else num (p !! "E0").
Proof.
  cbn [fn AppJsx.Emax]. cbn zeta.
  destruct (0 <? _); [reflexivity|apply sub_zero_r].
Qed.

End Evaluators.



(** The scenario of the specification: [E0 = 100], [Emax = 60], [ED50 = 0.5],
    [h = 1], evaluated at [0.5], gives [100 - 30 = 70]. *)
Example Emax_fn_at_half :
  defaults_of (params (@AppJsx.Emax ref_host)) = sample_Emax_params
  ∧ fn (@AppJsx.Emax ref_host) 0.5 sample_Emax_params = 70.
Proof. by vm_compute. Qed.

Section Baselines.
Context `{MathLib}.

(** C8, as the code has it: in [App.jsx] the Log-linear evaluator is
    [a + b * log10(x + eps)] with [eps = LOG_OFFSET = 0.001 > 0] and [a], [b]
    the two parameters of the variant; in [part_000] the variant has the single
    parameter [b] and the evaluator is [100 + b * (log10(x + eps) - log10(eps))],
    the line anchored at [100] instead of parameterised by an intercept. *)
Theorem LogLinear_fn_formula (x_ : float) (p : gmap string float) :
  fn AppJsx.LogLinear x_ p
  = loglinear_formula (num (p !! "a")) (num (p !! "b")) LOG_OFFSET x_
  ∧ (params AppJsx.LogLinear).*1 = ["a"; "b"]
  ∧ fn Part000.LogLinear x_ p
    = 100 + num (p !! "b")
            * (Math_log10 (x_ + LOG_OFFSET) - Math_log10 LOG_OFFSET)
  ∧ (params Part000.LogLinear).*1 = ["b"]
  ∧ LOG_OFFSET = 0.001 ∧ (0 <? LOG_OFFSET) = true.
Proof. by split_and!. Qed.

(** At dose [0] the numerator of the inhibition term is [Emax * 0]: with a
    zero numerator both branches of the guard give [0]. *)
Lemma inhibition_of_zero (den : float) : (if 0 <? den then 0 / den else 0) = 0.
Proof. destruct (0 <? den) eqn:Hden; [by apply zero_div_pos|done]. Qed.

Lemma ltb_zero_not_eqb (e : float) : (0 <? e) = true → (e =? 0) = false.
Proof.
  intros He. pose proof (leb_zero_cases e (ltb_leb _ _ He)) as Hc.
  rewrite He in Hc. by destruct (e =? 0).
Qed.

(** C9, as the code has it: at dose [0] on the default parameters, Linear
    returns the intercept [a = 100] in [App.jsx] and its constant [100] in
    [part_000]; Emax returns [E0 = 100] in both; Log-linear returns [100] in
    [part_000], whose line is anchored there, but in [App.jsx] it returns
    [a + b * log10(eps)] with [a = 100] and [b = -60], which is [280] and not
    the intercept once [Math.log10(0.001)] is [-3].  Two facts about the host
    are used: [Math.pow(+0, e)] is [+0] for [e > 0] (ECMA-262), and
    [Math.log10(eps)] is a finite number. *)
Theorem baseline_at_zero_dose :
  (∀ e, (0 <? e) = true → Math_pow 0 e = 0) →
  is_finite (Math_log10 LOG_OFFSET) = true →
  (fn AppJsx.Linear 0 (defaults_of (params AppJsx.Linear))
   = num (defaults_of (params AppJsx.Linear) !! "a")
   ∧ num (defaults_of (params AppJsx.Linear) !! "a") = 100)
  ∧ (fn AppJsx.LogLinear 0 (defaults_of (params AppJsx.LogLinear))
     = num (defaults_of (params AppJsx.LogLinear) !! "a")
       + num (defaults_of (params AppJsx.LogLinear) !! "b")
         * Math_log10 LOG_OFFSET
     ∧ num (defaults_of (params AppJsx.LogLinear) !! "a") = 100
     ∧ num (defaults_of (params AppJsx.LogLinear) !! "b") = -60
     ∧ (Math_log10 LOG_OFFSET = -3 →
        fn AppJsx.LogLinear 0 (defaults_of (params AppJsx.LogLinear)) = 280
        ∧ (fn AppJsx.LogLinear 0 (defaults_of (params AppJsx.LogLinear))
           =? num (defaults_of (params AppJsx.LogLinear) !! "a")) = false))
  ∧ (fn AppJsx.Emax 0 (defaults_of (params AppJsx.Emax))
     = num (defaults_of (params AppJsx.Emax) !! "E0")
     ∧ num (defaults_of (params AppJsx.Emax) !! "E0") = 100)
  ∧ fn Part000.Linear 0 (defaults_of (params Part000.Linear)) = 100
  ∧ fn Part000.LogLinear 0 (defaults_of (params Part000.LogLinear)) = 100
  ∧ fn Part000.Emax 0 (defaults_of (params Part000.Emax)) = 100.
Proof.
  intros Hpow Hlog.
  assert (Hp1 : Math_pow 0 1 = 0) by (by apply Hpow).
  assert (Hp15 : Math_pow 0 1.5 = 0) by (by apply Hpow).
  split_and!.
  - by vm_compute.
  - by vm_compute.
  - by vm_compute.
  - by vm_compute.
  - by vm_compute.
  - intros H3.
    change (fn AppJsx.LogLinear 0 (defaults_of (params AppJsx.LogLinear)))
      with (100 + -60 * Math_log10 LOG_OFFSET).
    rewrite H3. by vm_compute.
  - change (fn AppJsx.Emax 0 (defaults_of (params AppJsx.Emax)))
      with (100 - (if 0 <? Math_pow 0.5 1 + Math_pow 0 1
                   then 60 * Math_pow 0 1 / (Math_pow 0.5 1 + Math_pow 0 1)
                   else 0)).
    rewrite Hp1. change (60 * 0) with 0. by rewrite inhibition_of_zero.
  - by vm_compute.
  - by vm_compute.
  - change (fn Part000.LogLinear 0 (defaults_of (params Part000.LogLinear)))
      with (100 + -50 * (Math_log10 LOG_OFFSET - Math_log10 LOG_OFFSET)).
    by rewrite sub_diag_finite.
  - change (fn Part000.Emax 0 (defaults_of (params Part000.Emax)))
      with (100 - (if 0 <? Math_pow 1.5 1.5 + Math_pow 0 1.5
                   then 70 * Math_pow 0 1.5 / (Math_pow 1.5 1.5 + Math_pow 0 1.5)
                   else 0)).
    rewrite Hp15. change (70 * 0) with 0. by rewrite inhibition_of_zero.
Qed.

End Baselines.

Lemma pow_ref_zero_base (e : float) : (0 <? e) = true → pow_ref 0 e = 0.
Proof.
  intros He. unfold pow_ref.
  rewrite (ltb_not_nan_r _ _ He), (ltb_zero_not_eqb _ He), He.
  reflexivity.
Qed.

Lemma baseline_at_zero_dose_witness :
  is_finite (log10_ref LOG_OFFSET) = true
  ∧ fn AppJsx.Linear 0 (defaults_of (params AppJsx.Linear))
    = 100
  ∧ fn (@AppJsx.LogLinear ref_host) 0
      (defaults_of (params (@AppJsx.LogLinear ref_host)))
    = 280
  ∧ fn (@AppJsx.Emax ref_host) 0 (defaults_of (params (@AppJsx.Emax ref_host)))
    = 100
  ∧ fn Part000.Linear 0 (defaults_of (params Part000.Linear)) = 100
  ∧ fn (@Part000.LogLinear ref_host) 0
      (defaults_of (params (@Part000.LogLinear ref_host))) = 100
  ∧ fn (@Part000.Emax ref_host) 0
      (defaults_of (params (@Part000.Emax ref_host))) = 100.
Proof.
  assert (Hlog : is_finite (log10_ref LOG_OFFSET) = true) by reflexivity.
  split; [exact Hlog|].
  destruct (@baseline_at_zero_dose ref_host pow_ref_zero_base Hlog)
    as ((HL & HLa) & (_ & _ & _ & HLL) & (HE & HEa) & HPL & HPLL & HPE).
  split_and!.
  - by rewrite HL.
  - by apply HLL.
  - by rewrite HE.
  - exact HPL.
  - exact HPLL.
  - exact HPE.
Defined.

(** In [App.jsx] the Log-linear evaluator at dose [0] does not return the
    intercept: on the defaults it returns [280], where [a] is [100]. *)
Lemma AppJsx_LogLinear_zero_dose_off_intercept :
  fn (@AppJsx.LogLinear ref_host) 0
    (defaults_of (params (@AppJsx.LogLinear ref_host)))
  ≠ num (defaults_of (params (@AppJsx.LogLinear ref_host)) !! "a").
Proof. intros E; vm_compute in E; float_discr E. Qed.

Example AppJsx_LogLinear_zero_dose_values :
  fn (@AppJsx.LogLinear ref_host) 0
    (defaults_of (params (@AppJsx.LogLinear ref_host))) = 280
  ∧ num (defaults_of (params (@AppJsx.LogLinear ref_host)) !! "a") = 100
  ∧ log10_ref LOG_OFFSET = -3
  ∧ clampResponse 280 = 120.
Proof. split_and!; by vm_compute. Qed.

(** ** The sampled doses *)

Lemma Array_from_lookup {A : Type} (n : nat) (f : nat → A) (i : nat) :
  Array_from n f !! i = if decide (i < n)%nat then Some (f i) else None.
Proof.
  unfold Array_from. rewrite list_lookup_fmap.
  case_decide as Hi.
  - by rewrite lookup_seq_lt.
  - rewrite lookup_seq_ge by lia. reflexivity.
Qed.

(** C6, as the code has it: the sample of index [i] is the binary64 product
    [i * 0.01], for [i] from [0] to [320] in [App.jsx] and from [0] to [500] in
    [part_000].  The first sample is [0] and the last is [3.2], respectively
    [5]; the samples increase strictly, and each is the grid point [i / 100]
    or a binary64 neighbour of it. *)
Theorem sampled_doses (i : nat) :
  AppJsx.xs !! i = (if decide (i < 321)%nat then Some (of_index i * 0.01) else None)
  ∧ Part000.xs !! i
    = (if decide (i < 501)%nat then Some (of_index i * 0.01) else None)
  ∧ (AppJsx.xs !! 0%nat = Some 0 ∧ AppJsx.xs !! 320%nat = Some 3.2)
  ∧ (Part000.xs !! 0%nat = Some 0 ∧ Part000.xs !! 500%nat = Some 5)
  ∧ (increasing AppJsx.xs = true ∧ increasing Part000.xs = true)
  ∧ (forallb (λ ok : bool, ok) (imap near_grid AppJsx.xs) = true
     ∧ forallb (λ ok : bool, ok) (imap near_grid Part000.xs) = true).
Proof.
  split_and!.
  - unfold AppJsx.xs. by rewrite Array_from_lookup.
  - unfold Part000.xs. by rewrite Array_from_lookup.
  - by vm_compute.
  - by vm_compute.
  - by vm_compute.
  - by vm_compute.
  - by vm_compute.
  - by vm_compute.
  - by vm_compute.
  - by vm_compute.
Qed.

(** The samples are not all decimal grid points: the sample of index [35] is
    [0.35000000000000003], the binary64 value above [0.35]. *)
Lemma sampled_doses_off_grid :
  Part000.xs !! 35%nat ≠ Some 0.35 ∧ AppJsx.xs !! 35%nat ≠ Some 0.35.
Proof.
  split; intros E; apply (f_equal (default 0)) in E; vm_compute in E;
    float_discr E.
Qed.

Example sampled_dose_35 :
  Part000.xs !! 35%nat = Some (next_up 0.35)
  ∧ length (off_grid Part000.xs) = 62%nat
  ∧ length (off_grid AppJsx.xs) = 39%nat.
Proof. by vm_compute. Qed.

(** ** The plotted curve and the predictions *)

Section Render.
Context `{MathLib}.

Lemma clamped_point_intro (cfg : Model) (ps : gmap string float) (x_ : float) :
  clamped_point cfg ps (mkPoint x_ (clampResponse (fn cfg x_ ps))).
Proof.
  split; [reflexivity|]. cbn [x y]. apply clampResponse_range.
Qed.

Lemma curve_points (cfg : Model) (ps : gmap string float) (doses : list float) :
  Forall (clamped_point cfg ps)
    ((λ x_, mkPoint x_ (clampResponse (fn cfg x_ ps))) <$> doses).
Proof.
  apply Forall_fmap, Forall_forall. intros x_ _. apply clamped_point_intro.
Qed.

Lemma preds_at_doses (cfg : Model) (ps : gmap string float) (syn : gmap string float) :
  (λ d, fn cfg (x d) ps) <$> ((λ d, mkPoint d (emaxPred d syn)) <$> DOSES)
  = raw_predictions cfg ps.
Proof. unfold raw_predictions. by rewrite <- list_fmap_compose. Qed.

(** In a render of either copy, every point of the plotted curve carries
    [clampResponse] of the evaluator's response at its dose (in [[0, 120]]
    when that response is a number), while the predictions that enter the RSS
    are the evaluator's responses at the observed doses as they are. *)
Theorem curve_clamped_predictions_raw
    (hkA : AppJsx.Hooks) (hkP : Part000.Hooks) (cfgA cfgP : Model)
    (psA psP : gmap string float) :
  AppJsx.useModelState hkA = Some (cfgA, psA) →
  Part000.useModelState hkP = Some (cfgP, psP) →
  (∃ pts, AppJsx.curve hkA = Some pts
          ∧ x <$> pts = AppJsx.xs ∧ Forall (clamped_point cfgA psA) pts)
  ∧ AppJsx.preds hkA = Some (raw_predictions cfgA psA)
  ∧ AppJsx.rssVal hkA
    = Some (rss (y <$> AppJsx.demoData) (raw_predictions cfgA psA))
  ∧ (∃ pts, Part000.curve hkP = Some pts
            ∧ x <$> pts = Part000.xs ∧ Forall (clamped_point cfgP psP) pts)
  ∧ Part000.preds hkP = Some (raw_predictions cfgP psP)
  ∧ Part000.rssVal hkP
    = Some (rss (y <$> Part000.demoData) (raw_predictions cfgP psP)).
Proof.
  intros HA HP.
  assert (Hxs : ∀ (f : float → float) (l : list float),
            x <$> ((λ x_, mkPoint x_ (f x_)) <$> l) = l).
  { intros f l. rewrite <- list_fmap_compose. apply list_fmap_id. }
  unfold AppJsx.rssVal, Part000.rssVal, AppJsx.preds, Part000.preds,
    AppJsx.curve, Part000.curve.
  rewrite HA, HP. cbn [mbind option_bind fmap option_fmap option_map].
  unfold AppJsx.demoData at 1, Part000.demoData at 1.
  rewrite !preds_at_doses.
  split_and!; try reflexivity.
  - eexists. split_and!; [reflexivity|apply Hxs|apply curve_points].
  - eexists. split_and!; [reflexivity|apply Hxs|apply curve_points].
Qed.

End Render.

Lemma curve_clamped_predictions_raw_witness :
  @AppJsx.useModelState ref_host (@AppJsx.mount ref_host)
  = Some (@AppJsx.Emax ref_host, sample_Emax_params)
  ∧ @Part000.useModelState ref_host steep_Linear
    = Some (Part000.Linear, {["b" := -200]})
  ∧ @AppJsx.preds ref_host (@AppJsx.mount ref_host)
    = Some (raw_predictions (@AppJsx.Emax ref_host) sample_Emax_params)
  ∧ @Part000.preds ref_host steep_Linear
    = Some (raw_predictions Part000.Linear {["b" := -200]}).
Proof.
  assert (HA : @AppJsx.useModelState ref_host (@AppJsx.mount ref_host)
               = Some (@AppJsx.Emax ref_host, sample_Emax_params))
    by reflexivity.
  assert (HP : @Part000.useModelState ref_host steep_Linear
               = Some (Part000.Linear, {["b" := -200]}))
    by reflexivity.
  destruct (@curve_clamped_predictions_raw ref_host _ _ _ _ _ _ HA HP)
    as (_ & HpA & _ & _ & HpP & _).
  split_and!; [exact HA|exact HP|exact HpA|exact HpP].
Defined.

(** On the steep line the raw responses at the observed doses leave
    [[0, 120]] and stay as they are in the predictions, while the plotted
    curve at the same doses is clamped to [0]. *)
Example steep_line_predictions :
  @Part000.preds ref_host steep_Linear = Some [0; -100; -300; -500]
  ∧ (λ pts, y <$> pts !! 300%nat) <$> @Part000.curve ref_host steep_Linear
    = Some (Some 0).
Proof. by vm_compute. Qed.

(** ** The parameter store *)

Section Store.
Context `{MathLib}.

(** *** [part_000]: one parameter object per model *)

Lemma Part000_handle_modelKey (hk hk' : Part000.Hooks) (ev : Part000.Event) :
  Part000.handle hk ev = Some hk' →
  Part000.modelKey hk'
  = match ev with
    | Part000.EvSetModelKey k => k
    | _ => Part000.modelKey hk
    end.
Proof.
  unfold Part000.handle.
  destruct (Part000.useModelState hk) as [[cfg ps]|]; [|done].
  intros [= <-]. by destruct ev.
Qed.

Lemma Part000_handle_other (hk hk' : Part000.Hooks) (ev : Part000.Event)
    (v : string) :
  Part000.handle hk ev = Some hk' →
  Part000.leaves_alone v (Part000.modelKey hk) [ev] →
  Part000.stateByModel hk' !! v = Part000.stateByModel hk !! v.
Proof.
  unfold Part000.handle.
  destruct (Part000.useModelState hk) as [[cfg ps]|]; [|done].
  intros [= <-]. destruct ev as [k|k val|]; cbn.
  - done.
  - intros [Hne _]. unfold Part000.update. by rewrite lookup_insert_ne.
  - intros [Hne _]. by rewrite lookup_insert_ne.
Qed.

(** Events fired while other models are selected leave the parameters of
    [v] as they were. *)
Lemma Part000_run_other (v : string) (evs : list Part000.Event) :
  ∀ hk hk',
    Part000.run hk evs = Some hk' →
    Part000.leaves_alone v (Part000.modelKey hk) evs →
    Part000.stateByModel hk' !! v = Part000.stateByModel hk !! v.
Proof.
  induction evs as [|ev evs IH]; intros hk hk'; cbn [Part000.run].
  { by intros [= <-]. }
  destruct (Part000.handle hk ev) as [hk1|] eqn:Hev; [|done].
  cbn [mbind option_bind]. intros Hrun Hquiet.
  pose proof (Part000_handle_modelKey _ _ _ Hev) as Hkey.
  rewrite (IH hk1 hk' Hrun).
  - apply (Part000_handle_other _ _ _ _ Hev).
    destruct ev; cbn [Part000.leaves_alone] in *;
      [done|destruct Hquiet as [Hne _]; by split..].
  - rewrite Hkey.
    destruct ev; cbn [Part000.leaves_alone] in *;
      [done|by destruct Hquiet as [_ Hq]..].
Qed.

Lemma Part000_run_snoc (evs : list Part000.Event) (ev : Part000.Event) :
  ∀ hk, Part000.run hk (evs ++ [ev])
        = Part000.run hk evs ≫= λ hk1, Part000.handle hk1 ev.
Proof.
  induction evs as [|e evs IH]; intros hk; cbn [Part000.run app].
  - cbn [mbind option_bind]. by destruct (Part000.handle hk ev).
  - destruct (Part000.handle hk e) as [hk1|]; cbn [mbind option_bind];
      [apply IH|done].
Qed.

Lemma Part000_leaves_alone_snoc (v k : string) (evs : list Part000.Event) :
  ∀ mk, Part000.leaves_alone v mk evs →
        Part000.leaves_alone v mk (evs ++ [Part000.EvSetModelKey k]).
Proof.
  induction evs as [|e evs IH]; intros mk;
    cbn [Part000.leaves_alone app]; [done|].
  destruct e; [apply IH|intros [Hne Hq]; split; [done|by apply IH]..].
Qed.

(** X12: the store of [part_000] keeps every variant's parameters through a
    model switch: after selecting another model [w], any events fired while
    models other than [v] are selected, and selecting [v] again, the render
    receives for [v] exactly what it had before. *)
Theorem Part000_switch_and_back (hk hk' : Part000.Hooks) (w : string)
    (evs : list Part000.Event) :
  Part000.leaves_alone (Part000.modelKey hk) w evs →
  Part000.run hk
    (Part000.EvSetModelKey w :: evs ++ [Part000.EvSetModelKey (Part000.modelKey hk)])
  = Some hk' →
  Part000.useModelState hk' = Part000.useModelState hk.
Proof.
  intros Hquiet Hrun.
  assert (Hstore : Part000.stateByModel hk' !! Part000.modelKey hk
                   = Part000.stateByModel hk !! Part000.modelKey hk).
  { apply (Part000_run_other _ _ _ _ Hrun). cbn.
    by apply Part000_leaves_alone_snoc. }
  assert (Hkey : Part000.modelKey hk' = Part000.modelKey hk).
  { change (Part000.EvSetModelKey w :: evs ++ [Part000.EvSetModelKey (Part000.modelKey hk)])
      with ((Part000.EvSetModelKey w :: evs)
              ++ [Part000.EvSetModelKey (Part000.modelKey hk)]) in Hrun.
    rewrite Part000_run_snoc in Hrun.
    destruct (Part000.run hk (Part000.EvSetModelKey w :: evs)) as [hk1|];
      [|done].
    cbn [mbind option_bind] in Hrun.
    by rewrite (Part000_handle_modelKey _ _ _ Hrun). }
  unfold Part000.useModelState. by rewrite Hkey, Hstore.
Qed.

(** X13: in [part_000], [update] stores the value as it is under key [k] of the
    selected model, keeps the other keys of that model, and keeps the whole
    parameter object of every other model. *)
Theorem Part000_update_frame (hk hk' : Part000.Hooks) (k : string) (val : float) :
  Part000.handle hk (Part000.EvUpdate k val) = Some hk' →
  ∃ ps ps',
    Part000.get (Part000.modelKey hk) hk = Some ps
    ∧ Part000.get (Part000.modelKey hk) hk' = Some ps'
    ∧ ps' !! k = Some val
    ∧ (∀ k', k' ≠ k → ps' !! k' = ps !! k')
    ∧ (∀ v, v ≠ Part000.modelKey hk → Part000.get v hk' = Part000.get v hk).
Proof.
  unfold Part000.handle, Part000.get.
  destruct (Part000.useModelState hk) as [[cfg ps]|] eqn:Hrender; [|done].
  intros [= <-]. revert Hrender. unfold Part000.useModelState.
  cbn [Part000.modelKey Part000.stateByModel].
  destruct (prop (Part000.modelKey hk) Part000.models) as [cfg'|]; [|done].
  cbn [mbind option_bind].
  destruct (Part000.stateByModel hk !! Part000.modelKey hk) as [ps0|] eqn:Hps;
    [|done].
  intros [= -> ->]. exists ps, (<[k := val]> ps).
  unfold Part000.update.
  rewrite Hps, lookup_insert_eq. cbn.
  split_and!; try done.
  - apply lookup_insert_eq.
  - intros k' Hk'. by apply lookup_insert_ne.
  - intros v Hv. by rewrite lookup_insert_ne.
Qed.

End Store.

(** *** [App.jsx]: one parameter object for all models *)

Section SharedCell.
Context `{MathLib}.

(** In [App.jsx] the store hands every registered model the one object it
    holds. *)
Lemma AppJsx_get_shared (hk : AppJsx.Hooks) (v : string) (cfg : Model) :
  prop v AppJsx.models = Some cfg → AppJsx.get v hk = Some (AppJsx.state hk).
Proof.
  intros Hv. unfold AppJsx.get, AppJsx.useModelState.
  cbn [AppJsx.modelKey AppJsx.state]. by rewrite Hv.
Qed.

(** C2 on [App.jsx], at a failing input: the slope of Linear is set to [-10];
    Log-linear is selected and its slope set to [-90]; Linear is selected
    again and receives the slope [-90]. *)
Theorem AppJsx_switch_back_returns_other_edit :
  ∃ hk1 hk2,
    AppJsx.run AppJsx.mount
      [AppJsx.EvSetModelKey "Linear"; AppJsx.EvUpdate "b" (-10)] = Some hk1
    ∧ AppJsx.modelKey hk1 = "Linear"
    ∧ (snd <$> AppJsx.useModelState hk1) ≫= lookup "b" = Some (-10)
    ∧ AppJsx.run hk1
        [AppJsx.EvSetModelKey "Log-linear"; AppJsx.EvUpdate "b" (-90);
         AppJsx.EvSetModelKey "Linear"] = Some hk2
    ∧ AppJsx.modelKey hk2 = "Linear"
    ∧ (snd <$> AppJsx.useModelState hk2) ≫= lookup "b" = Some (-90).
Proof.
  eexists _, _. split; [by vm_compute|]. by vm_compute.
Qed.

(** C7 on [App.jsx], at a failing input: with Linear selected and reset to
    its defaults, [update] of the slope to [-10] also changes the slope that
    Log-linear receives when it is selected next, from [-30] to [-10]. *)
Theorem AppJsx_update_reaches_other_variant :
  ∃ hk before after,
    AppJsx.run AppJsx.mount [AppJsx.EvSetModelKey "Linear"; AppJsx.EvReset]
    = Some hk
    ∧ AppJsx.modelKey hk = "Linear"
    ∧ AppJsx.run hk [AppJsx.EvSetModelKey "Log-linear"] = Some before
    ∧ AppJsx.run hk
        [AppJsx.EvUpdate "b" (-10); AppJsx.EvSetModelKey "Log-linear"]
      = Some after
    ∧ (snd <$> AppJsx.useModelState before) ≫= lookup "b" = Some (-30)
    ∧ (snd <$> AppJsx.useModelState after) ≫= lookup "b" = Some (-10).
Proof.
  eexists _, _, _. split; [by vm_compute|].
  split; [by vm_compute|]. split; [by vm_compute|].
  split; [by vm_compute|]. by vm_compute.
Qed.

(** The same events on [part_000]: Linear gets its own slope back, and the
    update of Linear leaves the slope of Log-linear at its default. *)
Example Part000_same_events :
  (Part000.run Part000.mount
     [Part000.EvSetModelKey "Linear"; Part000.EvUpdate "b" (-10);
      Part000.EvSetModelKey "Log-linear"; Part000.EvUpdate "b" (-90);
      Part000.EvSetModelKey "Linear"]
   ≫= λ hk, (snd <$> Part000.useModelState hk) ≫= lookup "b") = Some (-10)
  ∧ (Part000.run Part000.mount
       [Part000.EvSetModelKey "Linear"; Part000.EvReset;
        Part000.EvUpdate "b" (-10); Part000.EvSetModelKey "Log-linear"]
     ≫= λ hk, (snd <$> Part000.useModelState hk) ≫= lookup "b") = Some (-50).
Proof. split; by vm_compute. Qed.

(** In [App.jsx] a model selected after the first render receives the
    parameters of Emax, in which its own are missing: the Linear evaluator
    reads [undefined] and returns [NaN]. *)
Example AppJsx_after_switch :
  (AppJsx.run AppJsx.mount [AppJsx.EvSetModelKey "Linear"]
   ≫= λ hk, snd <$> AppJsx.useModelState hk) = Some sample_Emax_params
  ∧ fn AppJsx.Linear 1 sample_Emax_params = nan.
Proof. split; by vm_compute. Qed.

(** C5 on [App.jsx], at a failing input: from the first render, selecting
    Linear leaves the one parameter object as Emax wrote it, so the render
    hands Linear an object with no intercept and no slope.  Each of the [321]
    plotted points then carries [clampResponse] of a response that is [NaN],
    which is [NaN]: no plotted response lies in [[0, 120]].  In [part_000] the
    same selection hands Linear its own object and every one of the [501]
    plotted responses lies in [[0, 120]]. *)
Theorem AppJsx_curve_after_switch_off_range :
  (∃ hk pts,
     AppJsx.run AppJsx.mount [AppJsx.EvSetModelKey "Linear"] = Some hk
     ∧ AppJsx.useModelState hk
       = Some (AppJsx.Linear, defaults_of (params AppJsx.Emax))
     ∧ AppJsx.curve hk = Some pts
     ∧ x <$> pts = AppJsx.xs
     ∧ length pts = 321%nat
     ∧ Forall (λ pt, y pt = clampResponse (fn AppJsx.Linear (x pt)
                                             (defaults_of (params AppJsx.Emax)))
                     ∧ is_nan (y pt) = true
                     ∧ (0 <=? y pt) = false ∧ (y pt <=? 120) = false) pts)
  ∧ (∃ hk pts,
       Part000.run Part000.mount [Part000.EvSetModelKey "Linear"] = Some hk
       ∧ Part000.useModelState hk
         = Some (Part000.Linear, defaults_of (params Part000.Linear))
       ∧ Part000.curve hk = Some pts
       ∧ length pts = 501%nat
       ∧ Forall (λ pt, (0 <=? y pt) = true ∧ (y pt <=? 120) = true) pts).
Proof.
  split.
  - exists (AppJsx.mkHooks "Linear" (defaults_of (params AppJsx.Emax))),
      ((λ x_, mkPoint x_ (clampResponse
                            (fn AppJsx.Linear x_
                               (defaults_of (params AppJsx.Emax)))))
         <$> AppJsx.xs).
    split_and!; [reflexivity|reflexivity|reflexivity| | |].
    + rewrite <- list_fmap_compose. apply list_fmap_id.
    + by vm_compute.
    + apply Forall_fmap, Forall_forall. intros x_ _. cbn [y x compose].
      assert (Hnan : fn AppJsx.Linear x_ (defaults_of (params AppJsx.Emax))
                     = nan).
      { change (fn AppJsx.Linear x_ (defaults_of (params AppJsx.Emax)))
          with (nan + nan * x_). apply nan_absorbs. }
      rewrite Hnan. by vm_compute.
  - eexists _, _. split; [by vm_compute|]. split; [by vm_compute|].
    split; [reflexivity|]. split; [by vm_compute|].
    apply (bool_decide_unpack _). by vm_compute.
Qed.

End SharedCell.

(** ** The Log-linear evaluator of [part_000] *)

(** The evaluator of [part_000] reads no intercept.  On its default
    parameters, which hold the slope alone, it returns [100] at dose [0],
    where [a + b * log10(0 + eps)] has no [a] to read; on parameters that do
    carry [a = 100] beside [b = -50] it still returns [100], where the
    formula gives [250]. *)
Lemma LogLinear_part000_reads_no_intercept :
  fn (@Part000.LogLinear ref_host) 0
    (defaults_of (params (@Part000.LogLinear ref_host)))
  ≠ @loglinear_formula ref_host
      (num (defaults_of (params (@Part000.LogLinear ref_host)) !! "a"))
      (num (defaults_of (params (@Part000.LogLinear ref_host)) !! "b"))
      LOG_OFFSET 0
  ∧ fn (@Part000.LogLinear ref_host) 0 sample_LogLinear_params
    ≠ @loglinear_formula ref_host (num (sample_LogLinear_params !! "a"))
        (num (sample_LogLinear_params !! "b")) LOG_OFFSET 0.
Proof. split; intros E; vm_compute in E; float_discr E. Qed.

Example LogLinear_part000_values :
  fn (@Part000.LogLinear ref_host) 0 sample_LogLinear_params = 100
  ∧ @loglinear_formula ref_host (num (sample_LogLinear_params !! "a"))
      (num (sample_LogLinear_params !! "b")) LOG_OFFSET 0 = 250
  ∧ defaults_of (params (@Part000.LogLinear ref_host)) !! "a" = None.
Proof. split_and!; by vm_compute. Qed.

(** ** The first render, run on the reference host *)

(** The observed responses, the predictions and the RSS of the first render
    of each copy.  Only the exponents [1] and [2] occur, on which the
    reference host is exact. *)
Example first_render_AppJsx :
  y <$> @AppJsx.demoData ref_host
  = [21.568627450980387; 20.792079207920793; 20.398009950248749;
     20.265780730897006]
  ∧ @AppJsx.preds ref_host (@AppJsx.mount ref_host) = Some [70; 60; 52; 48.571428571428569]
  ∧ @AppJsx.rssVal ref_host (@AppJsx.mount ref_host) = Some 5682.7543745966541.
Proof. split_and!; by vm_compute. Qed.

Example first_render_Part000 :
  y <$> @Part000.demoData ref_host
  = [73.333333333333329; 60; 46.666666666666664; 40]
  ∧ @Part000.preds ref_host (@Part000.mount ref_host) = Some [90; 80; 60; 40]
  ∧ @Part000.rssVal ref_host (@Part000.mount ref_host) = Some 855.55555555555577.
Proof. split_and!; by vm_compute. Qed.

(** * Further properties of the code *)

(** ** The registry and the defaults *)

Lemma prop_None {A : Type} (k : string) (o : list (string * A)) :
  k ∉ o.*1 → prop k o = None.
Proof.
  induction o as [|[k' v] o IH]; [done|].
  cbn [fmap list_fmap fst prop]. rewrite not_elem_of_cons. intros [Hne Hk].
  destruct (String.eqb_spec k k') as [->|_]; [done|by apply IH].
Qed.

Lemma defaults_of_entry (ps : list (string * ParamSpec)) (k : string) :
  defaults_of ps !! k = defaultValue <$> prop k ps.
Proof.
  unfold defaults_of. induction ps as [|[k' v] ps IH]; [done|].
  cbn [fmap list_fmap list_to_map foldr prop fst snd uncurry].
  destruct (String.eqb_spec k k') as [->|Hne].
  - by rewrite lookup_insert_eq.
  - by rewrite lookup_insert_ne.
Qed.

(** X1: the object of defaults built by [Object.fromEntries] has, under each
    name of the schema, the default of that parameter, and nothing else. *)
Theorem defaults_of_lookup (ps : list (string * ParamSpec)) (k : string) :
  defaults_of ps !! k = defaultValue <$> prop k ps.
Proof. apply defaults_of_entry. Qed.

Lemma defaults_schema_present (cfg : Model) :
  schema_present cfg (defaults_of (params cfg)).
Proof.
  intros n spec Hn. rewrite defaults_of_entry, Hn. by eexists.
Qed.

(** A [forEach] that assigns [f v] under each key of an object literal. *)
Lemma forEach_assign_lookup {A B : Type} (f : A → B) (o : list (string * A))
    (k : string) :
  NoDup o.*1 →
  ∀ m0 : gmap string B,
    foldl (λ ini kv, <[kv.1 := f kv.2]> ini) m0 o !! k
    = match prop k o with Some v => Some (f v) | None => m0 !! k end.
Proof.
  induction o as [|[k' v] o IH]; [done|].
  cbn [fmap list_fmap fst]. rewrite NoDup_cons. intros [Hk' Hnd] m0.
  cbn [foldl prop fst snd]. rewrite (IH Hnd).
  destruct (String.eqb_spec k k') as [->|Hne].
  - by rewrite (prop_None _ _ Hk'), lookup_insert_eq.
  - destruct (prop k o); [done|]. by rewrite lookup_insert_ne.
Qed.

Section Registry.
Context `{MathLib}.

Lemma Part000_initial_entry (k : string) :
  Part000.initial !! k
  = (λ cfg, defaults_of (params cfg)) <$> prop k Part000.models.
Proof.
  unfold Part000.initial.
  etrans; [apply (forEach_assign_lookup (λ cfg, defaults_of (params cfg)))|].
  - apply (bool_decide_unpack _). by vm_compute.
  - destruct (prop k Part000.models); [done|apply lookup_empty].
Qed.

(** X2: the store of [part_000] starts with one entry per registered model,
    the defaults of that model, and with no other entry. *)
Theorem Part000_initial_lookup (k : string) :
  Part000.initial !! k
  = (λ cfg, defaults_of (params cfg)) <$> prop k Part000.models.
Proof. apply Part000_initial_entry. Qed.

(** X3: every slider of both copies is well formed. *)
Theorem sliders_well_formed :
  forallb (λ kv, forallb (λ ns, slider_ok ns.2) (params kv.2)) AppJsx.models
  = true
  ∧ forallb (λ kv, forallb (λ ns, slider_ok ns.2) (params kv.2)) Part000.models
    = true.
Proof. split; by vm_compute. Qed.

End Registry.

(** ** Renders that never throw *)

Section Renders.
Context `{MathLib}.

Lemma Part000_mount_complete : Part000_complete Part000.initial.
Proof.
  intros k cfg Hk. exists (defaults_of (params cfg)).
  split; [by rewrite Part000_initial_entry, Hk|apply defaults_schema_present].
Qed.

Lemma schema_present_insert (cfg : Model) (ps : gmap string float) (k : string)
    (val : float) :
  schema_present cfg ps → schema_present cfg (<[k := val]> ps).
Proof.
  intros Hps n spec Hn. destruct (decide (k = n)) as [->|Hne].
  - rewrite lookup_insert_eq. by eexists.
  - rewrite lookup_insert_ne by done. by eapply Hps.
Qed.

Lemma Part000_complete_render (hk : Part000.Hooks) :
  Part000_complete (Part000.stateByModel hk) →
  is_Some (prop (Part000.modelKey hk) Part000.models) →
  ∃ cfg ps, Part000.useModelState hk = Some (cfg, ps) ∧ schema_present cfg ps.
Proof.
  intros Hs [cfg Hcfg]. destruct (Hs _ _ Hcfg) as (ps & Hps & Hpresent).
  exists cfg, ps. unfold Part000.useModelState. by rewrite Hcfg, Hps.
Qed.

Lemma Part000_handle_complete (hk : Part000.Hooks) (ev : Part000.Event) :
  Part000_complete (Part000.stateByModel hk) →
  is_Some (prop (Part000.modelKey hk) Part000.models) →
  Part000_registered ev →
  ∃ hk', Part000.handle hk ev = Some hk'
         ∧ Part000_complete (Part000.stateByModel hk')
         ∧ is_Some (prop (Part000.modelKey hk') Part000.models).
Proof.
  intros Hs Hkey Hev.
  destruct (Part000_complete_render hk Hs Hkey) as (cfg & ps & Hrender & _).
  unfold Part000.handle. rewrite Hrender. cbn [mbind option_bind].
  eexists. split; [reflexivity|].
  destruct ev as [k|k val|]; cbn [Part000.stateByModel Part000.modelKey].
  - done.
  - split; [|done]. intros k0 cfg0 Hk0. unfold Part000.update.
    destruct (decide (Part000.modelKey hk = k0)) as [<-|Hne].
    + destruct (Hs _ _ Hk0) as (ps0 & Hps0 & Hpresent).
      rewrite lookup_insert_eq, Hps0. eexists. split; [reflexivity|].
      by apply schema_present_insert.
    + rewrite lookup_insert_ne by done. by apply Hs.
  - split; [|done]. intros k0 cfg0 Hk0.
    destruct (decide (Part000.modelKey hk = k0)) as [<-|Hne].
    + rewrite lookup_insert_eq. eexists. split; [reflexivity|].
      revert Hrender. unfold Part000.useModelState. rewrite Hk0.
      cbn [mbind option_bind].
      destruct (Part000.stateByModel hk !! Part000.modelKey hk); [|done].
      intros [= <- _]. apply defaults_schema_present.
    + rewrite lookup_insert_ne by done. by apply Hs.
Qed.

Lemma Part000_run_complete (evs : list Part000.Event) :
  ∀ hk,
    Part000_complete (Part000.stateByModel hk) →
    is_Some (prop (Part000.modelKey hk) Part000.models) →
    Forall Part000_registered evs →
    ∃ hk', Part000.run hk evs = Some hk'
           ∧ Part000_complete (Part000.stateByModel hk')
           ∧ is_Some (prop (Part000.modelKey hk') Part000.models).
Proof.
  induction evs as [|ev evs IH]; intros hk Hs Hkey Hevs.
  { by exists hk. }
  apply Forall_cons in Hevs as [Hev Hevs].
  destruct (Part000_handle_complete hk ev Hs Hkey Hev) as (hk1 & Hh & Hs1 & Hk1).
  cbn [Part000.run]. rewrite Hh. cbn [mbind option_bind]. by apply IH.
Qed.

(** X4: in [part_000], whatever the controls fire, the render never throws and
    the evaluator of the selected model finds every one of its parameters in
    the object it is handed. *)
Theorem Part000_parameters_always_present (evs : list Part000.Event) :
  Forall Part000_registered evs →
  ∃ hk cfg ps,
    Part000.run Part000.mount evs = Some hk
    ∧ Part000.useModelState hk = Some (cfg, ps)
    ∧ schema_present cfg ps.
Proof.
  intros Hevs.
  destruct (Part000_run_complete evs Part000.mount) as (hk & Hrun & Hs & Hkey);
    [apply Part000_mount_complete|by eexists|done|].
  destruct (Part000_complete_render hk Hs Hkey) as (cfg & ps & Hrender & Hps).
  by exists hk, cfg, ps.
Qed.

Lemma AppJsx_handle_registered (hk : AppJsx.Hooks) (ev : AppJsx.Event) :
  is_Some (prop (AppJsx.modelKey hk) AppJsx.models) →
  AppJsx_registered ev →
  ∃ hk', AppJsx.handle hk ev = Some hk'
         ∧ is_Some (prop (AppJsx.modelKey hk') AppJsx.models).
Proof.
  intros [cfg Hcfg] Hev. unfold AppJsx.handle, AppJsx.useModelState.
  rewrite Hcfg. cbn [mbind option_bind]. eexists. split; [reflexivity|].
  destruct ev; cbn [AppJsx.modelKey]; [done|by eexists..].
Qed.

(** X5: in [App.jsx], whatever the controls fire, the render never throws: every
    event is handled and the selected model stays a registered one. *)
Theorem AppJsx_render_never_throws (evs : list AppJsx.Event) :
  Forall AppJsx_registered evs →
  ∃ hk cfg,
    AppJsx.run AppJsx.mount evs = Some hk
    ∧ AppJsx.useModelState hk = Some (cfg, AppJsx.state hk).
Proof.
  assert (Hgen : ∀ hk0,
            is_Some (prop (AppJsx.modelKey hk0) AppJsx.models) →
            Forall AppJsx_registered evs →
            ∃ hk, AppJsx.run hk0 evs = Some hk
                  ∧ is_Some (prop (AppJsx.modelKey hk) AppJsx.models)).
  { induction evs as [|ev evs IH]; intros hk0 Hk0 Hevs.
    { by exists hk0. }
    apply Forall_cons in Hevs as [Hev Hevs].
    destruct (AppJsx_handle_registered hk0 ev Hk0 Hev) as (hk1 & Hh & Hk1).
    cbn [AppJsx.run]. rewrite Hh. cbn [mbind option_bind]. by apply IH. }
  intros Hevs.
  destruct (Hgen AppJsx.mount) as (hk & Hrun & cfg & Hcfg); [by eexists|done|].
  exists hk, cfg. split; [done|].
  unfold AppJsx.useModelState. by rewrite Hcfg.
Qed.

(** X6: a key that is not registered stops the component: the render that
    follows its selection throws, so no later event is handled. *)
Theorem unregistered_key_stops (k : string) (evA : AppJsx.Event)
    (evP : Part000.Event) :
  prop k AppJsx.models = None →
  prop k Part000.models = None →
  AppJsx.run AppJsx.mount [AppJsx.EvSetModelKey k] ≫= AppJsx.useModelState
  = None
  ∧ AppJsx.run AppJsx.mount [AppJsx.EvSetModelKey k; evA] = None
  ∧ Part000.run Part000.mount [Part000.EvSetModelKey k]
    ≫= Part000.useModelState = None
  ∧ Part000.run Part000.mount [Part000.EvSetModelKey k; evP] = None.
Proof.
  intros HA HP.
  assert (HrA : AppJsx.useModelState
                  (AppJsx.mkHooks k (AppJsx.state AppJsx.mount)) = None).
  { unfold AppJsx.useModelState. cbn [AppJsx.modelKey]. by rewrite HA. }
  assert (HrP : Part000.useModelState
                  (Part000.mkHooks k (Part000.stateByModel Part000.mount))
                = None).
  { unfold Part000.useModelState. cbn [Part000.modelKey]. by rewrite HP. }
  split_and!.
  - exact HrA.
  - change (AppJsx.handle (AppJsx.mkHooks k (AppJsx.state AppJsx.mount)) evA
            ≫= (λ hk', Some hk') = None).
    unfold AppJsx.handle. by rewrite HrA.
  - exact HrP.
  - change (Part000.handle
              (Part000.mkHooks k (Part000.stateByModel Part000.mount)) evP
            ≫= (λ hk', Some hk') = None).
    unfold Part000.handle. by rewrite HrP.
Qed.

End Renders.

(** ** [reset] and how the handlers compose *)

Section Handlers.
Context `{MathLib}.

(** X7: in [part_000], [reset] hands the selected model the defaults of its
    schema, each parameter at its [defaultValue], and keeps the object of
    every other model. *)
Theorem Part000_reset_restores (hk hk' : Part000.Hooks) :
  Part000.handle hk Part000.EvReset = Some hk' →
  ∃ cfg,
    prop (Part000.modelKey hk) Part000.models = Some cfg
    ∧ Part000.useModelState hk' = Some (cfg, defaults_of (params cfg))
    ∧ (∀ n spec, prop n (params cfg) = Some spec →
                 defaults_of (params cfg) !! n = Some (defaultValue spec))
    ∧ (∀ v, v ≠ Part000.modelKey hk →
            Part000.stateByModel hk' !! v = Part000.stateByModel hk !! v).
Proof.
  unfold Part000.handle.
  destruct (Part000.useModelState hk) as [[cfg ps]|] eqn:Hrender; [|done].
  intros [= <-]. revert Hrender. unfold Part000.useModelState.
  cbn [Part000.modelKey Part000.stateByModel].
  destruct (prop (Part000.modelKey hk) Part000.models) as [cfg'|]; [|done].
  cbn [mbind option_bind].
  destruct (Part000.stateByModel hk !! Part000.modelKey hk); [|done].
  intros [= -> _]. exists cfg. rewrite lookup_insert_eq.
  split_and!; try done.
  - intros n spec Hn. by rewrite defaults_of_entry, Hn.
  - intros v Hv. by rewrite lookup_insert_ne.
Qed.

(** X8: in [App.jsx], [reset] replaces the one parameter object by the defaults
    of the selected model: the next render hands that model all of its
    parameters, whatever object it was handed before. *)
Theorem AppJsx_reset_restores (hk hk' : AppJsx.Hooks) :
  AppJsx.handle hk AppJsx.EvReset = Some hk' →
  ∃ cfg,
    prop (AppJsx.modelKey hk) AppJsx.models = Some cfg
    ∧ AppJsx.useModelState hk' = Some (cfg, defaults_of (params cfg))
    ∧ schema_present cfg (defaults_of (params cfg)).
Proof.
  unfold AppJsx.handle, AppJsx.useModelState.
  destruct (prop (AppJsx.modelKey hk) AppJsx.models) as [cfg|] eqn:Hcfg; [|done].
  cbn [mbind option_bind]. intros [= <-]. exists cfg.
  cbn [AppJsx.modelKey AppJsx.state]. rewrite Hcfg.
  split_and!; [done..|apply defaults_schema_present].
Qed.

(** X9: [reset] forgets the edits made before it, and a second [reset] changes
    nothing, in both copies. *)
Theorem reset_absorbs (hkA : AppJsx.Hooks) (hkP : Part000.Hooks) (k : string)
    (val : float) :
  AppJsx.run hkA [AppJsx.EvUpdate k val; AppJsx.EvReset]
  = AppJsx.run hkA [AppJsx.EvReset]
  ∧ AppJsx.run hkA [AppJsx.EvReset; AppJsx.EvReset]
    = AppJsx.run hkA [AppJsx.EvReset]
  ∧ Part000.run hkP [Part000.EvUpdate k val; Part000.EvReset]
    = Part000.run hkP [Part000.EvReset]
  ∧ Part000.run hkP [Part000.EvReset; Part000.EvReset]
    = Part000.run hkP [Part000.EvReset].
Proof.
  split_and!.
  - cbn [AppJsx.run]. unfold AppJsx.handle, AppJsx.useModelState.
    destruct (prop (AppJsx.modelKey hkA) AppJsx.models) as [cfg|] eqn:Hcfg;
      [|done].
    cbn [mbind option_bind AppJsx.modelKey]. by rewrite Hcfg.
  - cbn [AppJsx.run]. unfold AppJsx.handle, AppJsx.useModelState.
    destruct (prop (AppJsx.modelKey hkA) AppJsx.models) as [cfg|] eqn:Hcfg;
      [|done].
    cbn [mbind option_bind AppJsx.modelKey]. by rewrite Hcfg.
  - cbn [Part000.run]. unfold Part000.handle, Part000.useModelState.
    destruct (prop (Part000.modelKey hkP) Part000.models) as [cfg|] eqn:Hcfg;
      [|done].
    cbn [mbind option_bind].
    destruct (Part000.stateByModel hkP !! Part000.modelKey hkP) as [ps|];
      [|done].
    cbn [mbind option_bind Part000.modelKey Part000.stateByModel].
    rewrite Hcfg. unfold Part000.update.
    rewrite lookup_insert_eq. cbn [mbind option_bind].
    by rewrite insert_insert_eq.
  - cbn [Part000.run]. unfold Part000.handle, Part000.useModelState.
    destruct (prop (Part000.modelKey hkP) Part000.models) as [cfg|] eqn:Hcfg;
      [|done].
    cbn [mbind option_bind].
    destruct (Part000.stateByModel hkP !! Part000.modelKey hkP) as [ps|];
      [|done].
    cbn [mbind option_bind Part000.modelKey Part000.stateByModel].
    rewrite Hcfg, lookup_insert_eq. cbn [mbind option_bind].
    by rewrite insert_insert_eq.
Qed.

(** X10: two updates of one parameter leave the value of the second, in both
    copies. *)
Theorem update_last_write_wins (hkA : AppJsx.Hooks) (hkP : Part000.Hooks)
    (k : string) (v1 v2 : float) :
  AppJsx.run hkA [AppJsx.EvUpdate k v1; AppJsx.EvUpdate k v2]
  = AppJsx.run hkA [AppJsx.EvUpdate k v2]
  ∧ Part000.run hkP [Part000.EvUpdate k v1; Part000.EvUpdate k v2]
    = Part000.run hkP [Part000.EvUpdate k v2].
Proof.
  split.
  - cbn [AppJsx.run]. unfold AppJsx.handle, AppJsx.useModelState.
    destruct (prop (AppJsx.modelKey hkA) AppJsx.models) as [cfg|] eqn:Hcfg;
      [|done].
    cbn [mbind option_bind AppJsx.modelKey AppJsx.state]. rewrite Hcfg.
    cbn [mbind option_bind]. unfold AppJsx.update.
    by rewrite insert_insert_eq.
  - cbn [Part000.run]. unfold Part000.handle, Part000.useModelState.
    destruct (prop (Part000.modelKey hkP) Part000.models) as [cfg|] eqn:Hcfg;
      [|done].
    cbn [mbind option_bind].
    destruct (Part000.stateByModel hkP !! Part000.modelKey hkP) as [ps|] eqn:Hps;
      [|done].
    cbn [mbind option_bind Part000.modelKey Part000.stateByModel].
    rewrite Hcfg. unfold Part000.update.
    rewrite !lookup_insert_eq, Hps. cbn [mbind option_bind default].
    unfold Datatypes.id.
    by rewrite !insert_insert_eq.
Qed.

(** X11: updates of two different parameters can be made in either order, in both
    copies. *)
Theorem updates_commute (hkA : AppJsx.Hooks) (hkP : Part000.Hooks)
    (k1 k2 : string) (v1 v2 : float) :
  k1 ≠ k2 →
  AppJsx.run hkA [AppJsx.EvUpdate k1 v1; AppJsx.EvUpdate k2 v2]
  = AppJsx.run hkA [AppJsx.EvUpdate k2 v2; AppJsx.EvUpdate k1 v1]
  ∧ Part000.run hkP [Part000.EvUpdate k1 v1; Part000.EvUpdate k2 v2]
    = Part000.run hkP [Part000.EvUpdate k2 v2; Part000.EvUpdate k1 v1].
Proof.
  intros Hne. split.
  - cbn [AppJsx.run]. unfold AppJsx.handle, AppJsx.useModelState.
    destruct (prop (AppJsx.modelKey hkA) AppJsx.models) as [cfg|] eqn:Hcfg;
      [|done].
    cbn [mbind option_bind AppJsx.modelKey AppJsx.state]. rewrite Hcfg.
    cbn [mbind option_bind]. unfold AppJsx.update.
    by rewrite (insert_insert_ne _ k1 k2).
  - cbn [Part000.run]. unfold Part000.handle, Part000.useModelState.
    destruct (prop (Part000.modelKey hkP) Part000.models) as [cfg|] eqn:Hcfg;
      [|done].
    cbn [mbind option_bind].
    destruct (Part000.stateByModel hkP !! Part000.modelKey hkP) as [ps|] eqn:Hps;
      [|done].
    cbn [mbind option_bind Part000.modelKey Part000.stateByModel].
    rewrite Hcfg. unfold Part000.update.
    rewrite !lookup_insert_eq, Hps. cbn [mbind option_bind default].
    unfold Datatypes.id.
    rewrite !insert_insert_eq. by rewrite (insert_insert_ne _ k1 k2).
Qed.

End Handlers.

(** ** More facts about binary64 *)

Lemma SFcompare_antisym (f g : spec_float) :
  SFcompare g f = CompOpp <$> SFcompare f g.
Proof.
  destruct f as [s|s| |s m e], g as [t|t| |t n k]; try done;
    try (by destruct s); try (by destruct t); try (by destruct s, t).
  cbn [SFcompare].
  rewrite (Z.compare_antisym e k).
  replace (PosDef.Pos.compare_cont Eq n m) with (Pos.compare n m) by reflexivity.
  replace (PosDef.Pos.compare_cont Eq m n) with (Pos.compare m n) by reflexivity.
  rewrite (Pos.compare_antisym m n).
  destruct s, t; cbn; try done;
    destruct (e ?= k)%Z; cbn; try done; by destruct (m ?= n)%positive.
Qed.

Lemma leb_ltb_false (a b : float) : (a <=? b) = true → (b <? a) = false.
Proof.
  rewrite FloatAxioms.leb_spec, FloatAxioms.ltb_spec. unfold SFleb, SFltb.
  rewrite (SFcompare_antisym (Prim2SF a) (Prim2SF b)).
  by destruct (SFcompare (Prim2SF a) (Prim2SF b)) as [[]|].
Qed.

Lemma leb_not_nan_l (a b : float) : (a <=? b) = true → is_nan a = false.
Proof.
  unfold is_nan. rewrite FloatAxioms.leb_spec, FloatAxioms.eqb_spec.
  unfold SFleb, SFeqb. intros Hab.
  rewrite SFcompare_refl; [done|].
  intros Ha. by rewrite Ha in Hab.
Qed.

Lemma is_nan_Prim2SF (a : float) : is_nan a = true ↔ Prim2SF a = S754_nan.
Proof.
  unfold is_nan. rewrite FloatAxioms.eqb_spec. unfold SFeqb. split.
  - intros Hn. destruct (Prim2SF a) as [s|s| |s m e] eqn:Ha; [| |done|];
      by rewrite SFcompare_refl in Hn.
  - by intros ->.
Qed.

Lemma is_nan_eq (a : float) : is_nan a = true → a = nan.
Proof.
  intros Ha. apply Prim2SF_inj. by rewrite (proj1 (is_nan_Prim2SF a) Ha).
Qed.


(** Below a non-positive number every number is below [120]. *)
Lemma leb_zero_ltb_120 (v : float) : (v <=? 0) = true → (v <? 120) = true.
Proof.
  rewrite FloatAxioms.leb_spec, FloatAxioms.ltb_spec. unfold SFleb, SFltb.
  replace (Prim2SF 0) with (S754_zero false) by reflexivity.
  replace (Prim2SF 120) with (S754_finite false 8444249301319680 (-46))
    by reflexivity.
  destruct (Prim2SF v) as [s|s| |s m e]; try done; by destruct s.
Qed.

(** ** More on [clampResponse] *)

(** X14: [clampResponse] never hides and never makes a [NaN]: its result is [NaN]
    exactly when its argument is. *)
Theorem clampResponse_nan_iff (v : float) :
  is_nan (clampResponse v) = is_nan v.
Proof.
  destruct (is_nan v) eqn:Hv.
  - by rewrite (clampResponse_nan v Hv).
  - destruct (clampResponse_range v Hv) as [Hlo _].
    by apply leb_not_nan_r in Hlo.
Qed.

(** X15: [clampResponse] saturates: it returns its argument strictly inside the
    range, [120] from [120] on and [0] up to [0]. *)
Theorem clampResponse_saturates (v : float) :
  ((0 <? v) = true → (v <? 120) = true → clampResponse v = v)
  ∧ ((120 <=? v) = true → clampResponse v = 120)
  ∧ ((v <=? 0) = true → clampResponse v = 0).
Proof.
  split_and!.
  - intros Hlo Hhi.
    rewrite clampResponse_number by (by apply ltb_not_nan_r in Hlo).
    cbn zeta. by rewrite Hhi, Hlo.
  - intros Hhi.
    rewrite clampResponse_number by (by apply leb_not_nan_r in Hhi).
    cbn zeta. by rewrite (leb_ltb_false _ _ Hhi).
  - intros Hlo.
    rewrite clampResponse_number by (by apply leb_not_nan_l in Hlo).
    cbn zeta. by rewrite (leb_zero_ltb_120 _ Hlo), (leb_ltb_false _ _ Hlo).
Qed.

(** ** More on the residual sum of squares *)

Section RSSMore.
Context `{MathLib}.

Lemma reduce_from_app {A B : Type} (f : B → A → nat → B) (l1 l2 : list A) :
  ∀ (i : nat) (acc : B),
    reduce_from f i acc (l1 ++ l2)
    = reduce_from f (i + length l1) (reduce_from f i acc l1) l2.
Proof.
  induction l1 as [|a l1 IH]; intros i acc; cbn [app reduce_from length].
  - by rewrite Nat.add_0_r.
  - rewrite IH. f_equal. lia.
Qed.

(** X16: one more observation adds one more squared residual to the sum, the one
    at its own index; the sum of the observations before it is unchanged. *)
Theorem rss_snoc (obs pred : list float) (o : float) :
  rss (obs ++ [o]) pred
  = rss obs pred + Math_pow (o - nullish (pred !! length obs) 0) 2.
Proof. unfold rss, reduce. by rewrite reduce_from_app. Qed.

Lemma rss_from_nonneg (pred obs : list float) :
  ∀ (i : nat) (acc : float),
    (0 <=? acc) = true →
    (∀ j o, obs !! j = Some o →
            (0 <=? Math_pow (o - nullish (pred !! (i + j)%nat) 0) 2) = true) →
    (0 <=? reduce_from
             (λ acc y_ j, acc + Math_pow (y_ - nullish (pred !! j) 0) 2)
             i acc obs) = true.
Proof.
  induction obs as [|o obs IH]; intros i acc Hacc Hterms; [done|].
  cbn [reduce_from]. apply IH.
  - apply add_nonneg; [done|].
    specialize (Hterms 0%nat o eq_refl). by rewrite Nat.add_0_r in Hterms.
  - intros j o' Hj. specialize (Hterms (S j) o' Hj).
    by replace (S i + j)%nat with (i + S j)%nat by lia.
Qed.

(** X17: when every squared residual is a non-negative number, so is their sum:
    rounding never takes the RSS below zero nor to [NaN]. *)
Theorem rss_nonneg (obs pred : list float) :
  (∀ i o, obs !! i = Some o →
          (0 <=? Math_pow (o - nullish (pred !! i) 0) 2) = true) →
  (0 <=? rss obs pred) = true.
Proof.
  intros Hterms. unfold rss, reduce. by apply rss_from_nonneg.
Qed.

Lemma rss_from_perfect (pred obs : list float) :
  Math_pow 0 2 = 0 →
  ∀ i : nat,
    (∀ j o, obs !! j = Some o →
            pred !! (i + j)%nat = Some o ∧ is_finite o = true) →
    reduce_from (λ acc y_ j, acc + Math_pow (y_ - nullish (pred !! j) 0) 2)
      i 0 obs = 0.
Proof.
  intros Hpow. induction obs as [|o obs IH]; intros i Hfit; [done|].
  cbn [reduce_from].
  destruct (Hfit 0%nat o eq_refl) as [Hp Hfin]. rewrite Nat.add_0_r in Hp.
  rewrite Hp. cbn [nullish default].
  change (Datatypes.id o) with o.
  rewrite (sub_diag_finite o Hfin), Hpow. change (0 + 0) with 0.
  apply IH. intros j o' Hj. specialize (Hfit (S j) o' Hj).
  by replace (S i + j)%nat with (i + S j)%nat by lia.
Qed.

(** X18: a perfect fit has residual zero: on finite observations, predictions
    equal to the observations (followed by any further ones) give an RSS of
    exactly [0].  The host fact used is [Math.pow(+0, 2) = +0]. *)
Theorem rss_perfect_fit (obs extra : list float) :
  Math_pow 0 2 = 0 →
  Forall (λ o, is_finite o = true) obs →
  rss obs (obs ++ extra) = 0.
Proof.
  intros Hpow Hfin. unfold rss, reduce. apply rss_from_perfect; [done|].
  intros j o Hj. split.
  - by apply lookup_app_l_Some.
  - by apply (Forall_lookup_1 _ _ j o Hfin).
Qed.

End RSSMore.

Lemma rss_nonneg_witness :
  (∀ i o, ([100; 60] : list float) !! i = Some o →
          (0 <=? pow_ref (o - nullish (([90] : list float) !! i) 0) 2) = true)
  ∧ (0 <=? @rss ref_host [100; 60] [90]) = true.
Proof.
  assert (Hterms : ∀ i o, ([100; 60] : list float) !! i = Some o →
            (0 <=? pow_ref (o - nullish (([90] : list float) !! i) 0) 2) = true).
  { intros [|[|i]] o Hi; [| |done].
    - apply (f_equal (default 0)) in Hi. cbn in Hi. by subst o.
    - apply (f_equal (default 0)) in Hi. cbn in Hi. by subst o. }
  split; [exact Hterms|].
  exact (@rss_nonneg ref_host [100; 60] [90] Hterms).
Defined.

Lemma rss_perfect_fit_witness :
  pow_ref 0 2 = 0
  ∧ Forall (λ o, is_finite o = true) [100; 60.5]
  ∧ @rss ref_host [100; 60.5] ([100; 60.5] ++ [7]) = 0.
Proof.
  assert (Hpow : pow_ref 0 2 = 0) by reflexivity.
  assert (Hfin : Forall (λ o, is_finite o = true) [100; 60.5])
    by (repeat constructor).
  split; [exact Hpow|]. split; [exact Hfin|].
  exact (@rss_perfect_fit ref_host [100; 60.5] [7] Hpow Hfin).
Defined.

(** ** More on the evaluators *)

(** Zeros of either sign. *)
Lemma eqb_zero_Prim2SF (z : float) :
  (z =? 0) = true → ∃ s, Prim2SF z = S754_zero s.
Proof.
  rewrite FloatAxioms.eqb_spec. unfold SFeqb.
  replace (Prim2SF 0) with (S754_zero false) by reflexivity.
  destruct (Prim2SF z) as [s|s| |s m e]; try done; [by eexists|by destruct s..].
Qed.

Lemma mul_zero_finite (b : float) : is_finite b = true → (b * 0 =? 0) = true.
Proof.
  unfold is_finite, is_nan, is_infinity.
  rewrite !FloatAxioms.eqb_spec, FloatAxioms.abs_spec, FloatAxioms.mul_spec.
  replace (Prim2SF infinity) with (S754_infinity false) by reflexivity.
  replace (Prim2SF 0) with (S754_zero false) by reflexivity.
  destruct (Prim2SF b) as [s|s| |s m e]; try done; by destruct s.
Qed.

Lemma zero_div_pos_eqb (z d : float) :
  (z =? 0) = true → (0 <? d) = true → (z / d =? 0) = true.
Proof.
  intros [s Hz]%eqb_zero_Prim2SF.
  rewrite FloatAxioms.ltb_spec, FloatAxioms.eqb_spec, FloatAxioms.div_spec, Hz.
  replace (Prim2SF 0) with (S754_zero false) by reflexivity.
  unfold SFltb.
  destruct (Prim2SF d) as [t|t| |t n k]; try done; by destruct s, t.
Qed.

(** Adding or subtracting a zero leaves a non-zero value as it is. *)
Lemma add_sub_zero (c z : float) :
  (z =? 0) = true → (c =? 0) = false → c + z = c ∧ c - z = c.
Proof.
  intros [s Hz]%eqb_zero_Prim2SF. rewrite FloatAxioms.eqb_spec.
  replace (Prim2SF 0) with (S754_zero false) by reflexivity. intros Hc.
  split; apply Prim2SF_inj;
    rewrite ?FloatAxioms.add_spec, ?FloatAxioms.sub_spec, Hz;
    destruct (Prim2SF c) as [t|t| |t n k]; try done; by destruct s.
Qed.

(** Adding or subtracting a zero leaves a number numerically equal. *)
Lemma add_sub_zero_eqb (c z : float) :
  (z =? 0) = true → is_nan c = false →
  (c + z =? c) = true ∧ (c - z =? c) = true.
Proof.
  intros [s Hz]%eqb_zero_Prim2SF. unfold is_nan.
  rewrite !FloatAxioms.eqb_spec, FloatAxioms.add_spec, FloatAxioms.sub_spec, Hz.
  destruct (Prim2SF c) as [t|t| |t n k] eqn:Hc; try done; intros _.
  - by destruct s, t.
  - by destruct s, t.
  - unfold SF64add, SF64sub, SFadd, SFsub, SFeqb.
    by rewrite SFcompare_refl.
Qed.

Section EvaluatorsMore.
Context `{MathLib}.

(** X19: an evaluator that is handed an object without its intercept, baseline
    or slope returns [NaN]. *)
Theorem missing_parameter_gives_NaN (x_ : float) (p : gmap string float) :
  (p !! "a" = None →
   fn AppJsx.Linear x_ p = nan ∧ fn AppJsx.LogLinear x_ p = nan)
  ∧ (p !! "E0" = None → fn AppJsx.Emax x_ p = nan)
  ∧ (p !! "b" = None →
     fn AppJsx.Linear x_ p = nan ∧ fn AppJsx.LogLinear x_ p = nan
     ∧ fn Part000.Linear x_ p = nan ∧ fn Part000.LogLinear x_ p = nan).
Proof.
  split_and!.
  - intros Ha. cbn [fn AppJsx.Linear AppJsx.LogLinear]. rewrite Ha.
    cbn [num default]. split; apply nan_absorbs.
  - intros HE0. cbn [fn AppJsx.Emax]. cbn zeta. rewrite HE0.
    cbn [num default]. apply nan_absorbs.
  - intros Hb. cbn [fn AppJsx.Linear AppJsx.LogLinear Part000.Linear
                    Part000.LogLinear]. rewrite Hb. cbn [num default].
    split_and!.
    + rewrite (proj1 (proj2 (proj2 (proj2 (proj2 (nan_absorbs x_)))))).
      apply nan_absorbs.
    + rewrite (proj1 (proj2 (proj2 (proj2 (proj2 (nan_absorbs _)))))).
      apply nan_absorbs.
    + rewrite (proj1 (proj2 (proj2 (proj2 (proj2 (nan_absorbs x_)))))).
      apply nan_absorbs.
    + rewrite (proj1 (proj2 (proj2 (proj2 (proj2 (nan_absorbs _)))))).
      apply nan_absorbs.
Qed.

(** X20: in [App.jsx], a render that selects Linear or Log-linear while the one
    parameter object has no intercept plots [NaN] at every sampled dose and
    predicts [NaN] at every observed dose. *)
Theorem AppJsx_curve_without_intercept (hk : AppJsx.Hooks) :
  AppJsx.modelKey hk = "Linear" ∨ AppJsx.modelKey hk = "Log-linear" →
  AppJsx.state hk !! "a" = None →
  AppJsx.curve hk = Some ((λ x_, mkPoint x_ nan) <$> AppJsx.xs)
  ∧ AppJsx.preds hk = Some ((λ _, nan) <$> DOSES).
Proof.
  intros Hkey Ha.
  assert (Hrender : ∃ cfg,
            AppJsx.useModelState hk = Some (cfg, AppJsx.state hk)
            ∧ ∀ x_, fn cfg x_ (AppJsx.state hk) = nan).
  { unfold AppJsx.useModelState.
    destruct Hkey as [-> | ->]; eexists; (split; [reflexivity|]);
      intros x_;
      cbn [fn AppJsx.Linear AppJsx.LogLinear]; rewrite Ha; cbn [num default];
      apply nan_absorbs. }
  destruct Hrender as (cfg & Hrender & Hnan).
  unfold AppJsx.curve, AppJsx.preds, AppJsx.demoData.
  rewrite Hrender. cbn [mbind option_bind]. split; f_equal.
  - apply list_fmap_ext. intros i x_ _. by rewrite Hnan.
  - rewrite <- list_fmap_compose. apply list_fmap_ext. intros i d _.
    cbn. apply Hnan.
Qed.

(** X21: in [part_000] the three evaluators pass through [100] at dose [0] for
    all finite parameter values: the slope, the maximal drop and the
    exponent move the curve, not its start.  Host facts used:
    [Math.pow(+0, e) = +0] for [e > 0] and [Math.log10(eps)] finite. *)
Theorem Part000_anchored_at_100 (pL pE : gmap string float) :
  (∀ e, (0 <? e) = true → Math_pow 0 e = 0) →
  is_finite (Math_log10 LOG_OFFSET) = true →
  is_finite (num (pL !! "b")) = true →
  is_finite (num (pE !! "Emax")) = true →
  (0 <? num (pE !! "h")) = true →
  fn Part000.Linear 0 pL = 100
  ∧ fn Part000.LogLinear 0 pL = 100
  ∧ fn Part000.Emax 0 pE = 100.
Proof.
  intros Hpow Hlog Hb HEmax Hh.
  assert (H100 : (100 =? 0) = false) by reflexivity.
  split_and!.
  - cbn [fn Part000.Linear].
    by apply add_sub_zero; [apply mul_zero_finite|].
  - cbn [fn Part000.LogLinear]. change (0 + LOG_OFFSET) with LOG_OFFSET.
    rewrite (sub_diag_finite _ Hlog).
    by apply add_sub_zero; [apply mul_zero_finite|].
  - cbn [fn Part000.Emax]. cbn zeta. rewrite (Hpow _ Hh).
    apply add_sub_zero; [|done].
    destruct (0 <? Math_pow _ _ + 0) eqn:Hden; [|done].
    by apply zero_div_pos_eqb; [apply mul_zero_finite|].
Qed.

(** X22: in [App.jsx], at dose [0] the Linear evaluator returns a number equal to
    its intercept and the Emax evaluator a number equal to its baseline, for
    all finite parameter values.  Host fact used: [Math.pow(+0, e) = +0] for
    [e > 0]. *)
Theorem AppJsx_start_of_curve (pL pE : gmap string float) :
  (∀ e, (0 <? e) = true → Math_pow 0 e = 0) →
  is_nan (num (pL !! "a")) = false →
  is_finite (num (pL !! "b")) = true →
  is_nan (num (pE !! "E0")) = false →
  is_finite (num (pE !! "Emax")) = true →
  (0 <? num (pE !! "h")) = true →
  (fn AppJsx.Linear 0 pL =? num (pL !! "a")) = true
  ∧ (fn AppJsx.Emax 0 pE =? num (pE !! "E0")) = true.
Proof.
  intros Hpow Ha Hb HE0 HEmax Hh. split.
  - cbn [fn AppJsx.Linear].
    by apply add_sub_zero_eqb; [apply mul_zero_finite|].
  - cbn [fn AppJsx.Emax]. cbn zeta. rewrite (Hpow _ Hh).
    apply add_sub_zero_eqb; [|done].
    destruct (0 <? Math_pow _ _ + 0) eqn:Hden; [|done].
    by apply zero_div_pos_eqb; [apply mul_zero_finite|].
Qed.

End EvaluatorsMore.

(** ** The properties above at concrete inputs *)

Lemma Part000_parameters_always_present_witness :
  Forall (@Part000_registered ref_host)
    [Part000.EvSetModelKey "Emax"; Part000.EvUpdate "h" 2; Part000.EvReset;
     Part000.EvSetModelKey "Log-linear"]
  ∧ ∃ hk cfg ps,
      @Part000.run ref_host (@Part000.mount ref_host)
        [Part000.EvSetModelKey "Emax"; Part000.EvUpdate "h" 2; Part000.EvReset;
         Part000.EvSetModelKey "Log-linear"] = Some hk
      ∧ @Part000.useModelState ref_host hk = Some (cfg, ps)
      ∧ schema_present cfg ps.
Proof.
  assert (Hevs : Forall (@Part000_registered ref_host)
            [Part000.EvSetModelKey "Emax"; Part000.EvUpdate "h" 2;
             Part000.EvReset; Part000.EvSetModelKey "Log-linear"]).
  { repeat constructor; by eexists. }
  split; [exact Hevs|].
  exact (@Part000_parameters_always_present ref_host _ Hevs).
Defined.

Lemma AppJsx_render_never_throws_witness :
  Forall (@AppJsx_registered ref_host)
    [AppJsx.EvSetModelKey "Linear"; AppJsx.EvUpdate "b" 7; AppJsx.EvReset]
  ∧ ∃ hk cfg,
      @AppJsx.run ref_host (@AppJsx.mount ref_host)
        [AppJsx.EvSetModelKey "Linear"; AppJsx.EvUpdate "b" 7; AppJsx.EvReset]
      = Some hk
      ∧ @AppJsx.useModelState ref_host hk = Some (cfg, AppJsx.state hk).
Proof.
  assert (Hevs : Forall (@AppJsx_registered ref_host)
            [AppJsx.EvSetModelKey "Linear"; AppJsx.EvUpdate "b" 7;
             AppJsx.EvReset]).
  { repeat constructor; by eexists. }
  split; [exact Hevs|].
  exact (@AppJsx_render_never_throws ref_host _ Hevs).
Defined.

Lemma unregistered_key_stops_witness :
  prop "Quadratic" (@AppJsx.models ref_host) = None
  ∧ prop "Quadratic" (@Part000.models ref_host) = None
  ∧ @AppJsx.run ref_host (@AppJsx.mount ref_host)
      [AppJsx.EvSetModelKey "Quadratic"; AppJsx.EvReset] = None
  ∧ @Part000.run ref_host (@Part000.mount ref_host)
      [Part000.EvSetModelKey "Quadratic"; Part000.EvUpdate "b" 1] = None.
Proof.
  assert (HA : prop "Quadratic" (@AppJsx.models ref_host) = None)
    by reflexivity.
  assert (HP : prop "Quadratic" (@Part000.models ref_host) = None)
    by reflexivity.
  destruct (@unregistered_key_stops ref_host "Quadratic" AppJsx.EvReset
              (Part000.EvUpdate "b" 1) HA HP) as (_ & HrA & _ & HrP).
  split_and!; [exact HA|exact HP|exact HrA|exact HrP].
Defined.

Lemma Part000_reset_restores_witness :
  @Part000.handle ref_host steep_Linear Part000.EvReset
  = Some (Part000.mkHooks "Linear" (<["Linear" := {["b" := -20]}]> ∅))
  ∧ ∃ cfg,
      prop "Linear" (@Part000.models ref_host) = Some cfg
      ∧ @Part000.useModelState ref_host
          (Part000.mkHooks "Linear" (<["Linear" := {["b" := -20]}]> ∅))
        = Some (cfg, defaults_of (params cfg)).
Proof.
  assert (Hh : @Part000.handle ref_host steep_Linear Part000.EvReset
               = Some (Part000.mkHooks "Linear"
                         (<["Linear" := {["b" := -20]}]> ∅)))
    by (by vm_compute).
  split; [exact Hh|].
  destruct (@Part000_reset_restores ref_host _ _ Hh) as (cfg & Hcfg & Hr & _).
  by exists cfg.
Defined.

Lemma AppJsx_reset_restores_witness :
  @AppJsx.handle ref_host (AppJsx.mkHooks "Linear" sample_Emax_params)
    AppJsx.EvReset
  = Some (AppJsx.mkHooks "Linear" (defaults_of (params AppJsx.Linear)))
  ∧ ∃ cfg,
      prop "Linear" (@AppJsx.models ref_host) = Some cfg
      ∧ @AppJsx.useModelState ref_host
          (AppJsx.mkHooks "Linear" (defaults_of (params AppJsx.Linear)))
        = Some (cfg, defaults_of (params cfg)).
Proof.
  assert (Hh : @AppJsx.handle ref_host
                 (AppJsx.mkHooks "Linear" sample_Emax_params) AppJsx.EvReset
               = Some (AppJsx.mkHooks "Linear"
                         (defaults_of (params AppJsx.Linear))))
    by reflexivity.
  split; [exact Hh|].
  destruct (@AppJsx_reset_restores ref_host _ _ Hh) as (cfg & Hcfg & Hr & _).
  by exists cfg.
Defined.

Lemma updates_commute_witness :
  "Emax" ≠ "h"
  ∧ @AppJsx.run ref_host (@AppJsx.mount ref_host)
      [AppJsx.EvUpdate "Emax" 50; AppJsx.EvUpdate "h" 2]
    = @AppJsx.run ref_host (@AppJsx.mount ref_host)
        [AppJsx.EvUpdate "h" 2; AppJsx.EvUpdate "Emax" 50].
Proof.
  assert (Hne : "Emax" ≠ "h") by done.
  split; [exact Hne|].
  exact (proj1 (@updates_commute ref_host (@AppJsx.mount ref_host)
                  (@Part000.mount ref_host) "Emax" "h" 50 2 Hne)).
Defined.

Lemma AppJsx_curve_without_intercept_witness :
  sample_Emax_params !! "a" = None
  ∧ @AppJsx.preds ref_host (AppJsx.mkHooks "Linear" sample_Emax_params)
    = Some ((λ _, nan) <$> DOSES).
Proof.
  assert (Ha : sample_Emax_params !! "a" = None) by reflexivity.
  split; [exact Ha|].
  exact (proj2 (@AppJsx_curve_without_intercept ref_host
                  (AppJsx.mkHooks "Linear" sample_Emax_params)
                  (or_introl eq_refl) Ha)).
Defined.

Lemma Part000_anchored_at_100_witness :
  is_finite (log10_ref LOG_OFFSET) = true
  ∧ fn Part000.Linear 0 {["b" := -200]} = 100
  ∧ fn (@Part000.LogLinear ref_host) 0 {["b" := -200]} = 100
  ∧ fn (@Part000.Emax ref_host) 0
      (defaults_of (params (@Part000.Emax ref_host))) = 100.
Proof.
  assert (Hlog : is_finite (log10_ref LOG_OFFSET) = true) by reflexivity.
  split; [exact Hlog|].
  apply (@Part000_anchored_at_100 ref_host {["b" := -200]}
           (defaults_of (params (@Part000.Emax ref_host)))
           pow_ref_zero_base Hlog); by vm_compute.
Defined.

Lemma AppJsx_start_of_curve_witness :
  (fn AppJsx.Linear 0 (defaults_of (params AppJsx.Linear))
   =? num (defaults_of (params AppJsx.Linear) !! "a")) = true
  ∧ (fn (@AppJsx.Emax ref_host) 0 sample_Emax_params
     =? num (sample_Emax_params !! "E0")) = true.
Proof.
  apply (@AppJsx_start_of_curve ref_host (defaults_of (params AppJsx.Linear))
           sample_Emax_params pow_ref_zero_base); by vm_compute.
Defined.

Lemma Part000_switch_and_back_witness :
  Part000.leaves_alone "Linear" "Emax" [Part000.EvUpdate "h" 2]
  ∧ ∃ hk,
      @Part000.run ref_host (@Part000.mount ref_host)
        [Part000.EvSetModelKey "Emax"; Part000.EvUpdate "h" 2;
         Part000.EvSetModelKey "Linear"] = Some hk
      ∧ @Part000.useModelState ref_host hk
        = @Part000.useModelState ref_host (@Part000.mount ref_host).
Proof.
  assert (Hq : Part000.leaves_alone "Linear" "Emax" [Part000.EvUpdate "h" 2])
    by (by split).
  split; [exact Hq|].
  destruct (@Part000.run ref_host (@Part000.mount ref_host)
              [Part000.EvSetModelKey "Emax"; Part000.EvUpdate "h" 2;
               Part000.EvSetModelKey "Linear"]) as [hk|] eqn:Hrun.
  - exists hk. split; [reflexivity|].
    exact (@Part000_switch_and_back ref_host (@Part000.mount ref_host) hk
             "Emax" [Part000.EvUpdate "h" 2] Hq Hrun).
  - by vm_compute in Hrun.
Defined.

Lemma Part000_update_frame_witness :
  ∃ hk ps',
    @Part000.handle ref_host (@Part000.mount ref_host)
      (Part000.EvUpdate "b" 1000) = Some hk
    ∧ @Part000.get ref_host "Linear" hk = Some ps'
    ∧ ps' !! "b" = Some 1000.
Proof.
  destruct (@Part000.handle ref_host (@Part000.mount ref_host)
              (Part000.EvUpdate "b" 1000)) as [hk|] eqn:Hh.
  - destruct (@Part000_update_frame ref_host _ hk "b" 1000 Hh)
      as (ps & ps' & _ & Hget & Hb & _).
    by exists hk, ps'.
  - by vm_compute in Hh.
Defined.

(** ** The display of numbers *)

Section Display.
Context `{NumberLib}.

Lemma string_of_uint_digits (d : Decimal.uint) :
  Forall (λ c, is_decimal_digit c = true)
    (String.list_ascii_of_string (NilEmpty.string_of_uint d)).
Proof. induction d; cbn; by constructor. Qed.

Lemma digits_of_digits (n : N) :
  Forall (λ c, is_decimal_digit c = true) (digits_of n).
Proof.
  unfold digits_of, NilZero.string_of_uint.
  destruct (N.to_uint n) eqn:Hn; try apply string_of_uint_digits.
  by repeat constructor.
Qed.

Lemma digits_of_nonempty (n : N) : digits_of n ≠ [].
Proof.
  unfold digits_of, NilZero.string_of_uint.
  by destruct (N.to_uint n).
Qed.

(** The point goes before the last [f] digits, after at least one digit;
    the digits are those of [m] behind zeros that fill up. *)
Lemma point_at_shape (f : nat) (m : list ascii) :
  f ≠ 0%nat → m ≠ [] →
  ∃ a b z,
    point_at f m = a ++ "."%char :: b
    ∧ a ≠ [] ∧ length b = f ∧ a ++ b = replicate z "0"%char ++ m.
Proof.
  intros Hf Hm. unfold point_at. rewrite decide_False by done. cbn zeta.
  set (m' := if decide (length m ≤ f)%nat
             then replicate (f + 1 - length m) "0"%char ++ m else m).
  assert (Hlen : (f < length m')%nat).
  { subst m'. case_decide; [|lia].
    rewrite length_app, length_replicate. lia. }
  exists (take (length m' - f) m'), (drop (length m' - f) m'),
    (if decide (length m ≤ f)%nat then (f + 1 - length m)%nat else 0%nat).
  split_and!.
  - reflexivity.
  - intros Ha. apply (f_equal length) in Ha.
    rewrite length_take in Ha. cbn in Ha. lia.
  - rewrite length_drop. lia.
  - rewrite take_drop. subst m'. by case_decide.
Qed.

Example fmt_samples :
  fmt (Some 100) None = Some "100.00"
  ∧ fmt (Some (-30)) None = Some "-30.00"
  ∧ fmt (Some 0.5) None = Some "0.50"
  ∧ fmt (Some 1.005) None = Some "1.00"
  ∧ fmt (Some 0.125) None = Some "0.13"
  ∧ fmt (Some (-0.001)) None = Some "-0.00"
  ∧ fmt (Some (-0)) None = Some "0.00"
  ∧ fmt (Some 5682.7543745966541) (Some 1%nat) = Some "5682.8"
  ∧ fmt (Some 2.5) (Some 0%nat) = Some "3"
  ∧ fmt (Some 1.45) (Some 1%nat) = Some "1.4"
  ∧ fmt None None = Some "NaN"
  ∧ fmt (Some neg_infinity) None = Some "-Infinity"
  ∧ fmt (Some 1) (Some 101%nat) = None.
Proof. split_and!; by vm_compute. Qed.


(** For a finite number below [10^21] in magnitude and [1] to [100] digits,
    [toFixed] returns an optional minus sign, at least one digit, the point
    and exactly [f] digits; the digits are those of the integer nearest to
    the magnitude times [10^f] (the larger one in a tie), behind zeros that
    fill up. *)
Theorem toFixed_shape (v : float) (f : nat) :
  is_finite v = true →
  (1e21 <=? abs v) = false →
  (0 < f ≤ 100)%nat →
  ∃ a b z,
    toFixed v f
    = Some (String.append (if v <? 0 then "-" else "")
              (String.string_of_list_ascii (a ++ "."%char :: b)))
    ∧ a ≠ [] ∧ length b = f
    ∧ Forall (λ c, is_decimal_digit c = true) (a ++ b)
    ∧ a ++ b = replicate z "0"%char ++ digits_of (nearest_scaled v f)
    ∧ (2 * (exact_magnitude v).2 * Z.of_N (nearest_scaled v f)
       ≤ 2 * (exact_magnitude v).1 * 10 ^ Z.of_nat f + (exact_magnitude v).2
       < 2 * (exact_magnitude v).2 * (Z.of_N (nearest_scaled v f) + 1))%Z.
Proof.
  intros Hfin Hbig [Hf0 Hf100].
  destruct (point_at_shape f (digits_of (nearest_scaled v f)))
    as (a & b & z & Hpt & Ha & Hb & Hab); [lia|apply digits_of_nonempty|].
  exists a, b, z.
  assert (Hnn : is_nan v = false ∧ is_infinity v = false).
  { unfold is_finite in Hfin. by destruct (is_nan v), (is_infinity v). }
  destruct Hnn as [Hnan Hinf].
  assert (Hbracket :
    (2 * (exact_magnitude v).2 * Z.of_N (nearest_scaled v f)
     ≤ 2 * (exact_magnitude v).1 * 10 ^ Z.of_nat f + (exact_magnitude v).2
     < 2 * (exact_magnitude v).2 * (Z.of_N (nearest_scaled v f) + 1))%Z).
  { assert (Hpos : (0 ≤ (exact_magnitude v).1 ∧ 0 < (exact_magnitude v).2)%Z).
    { unfold exact_magnitude. destruct (Prim2SF v); cbn; lia. }
    destruct Hpos as [Hnu Hde].
    set (nu := (exact_magnitude v).1) in *.
    set (de := (exact_magnitude v).2) in *.
    assert (H10 : (0 < 10 ^ Z.of_nat f)%Z) by (apply Z.pow_pos_nonneg; lia).
    unfold nearest_scaled. fold nu de.
    rewrite Z2N.id by (apply Z.div_pos; nia).
    pose proof (Z.mul_div_le (2 * nu * 10 ^ Z.of_nat f + de) (2 * de)) as Hle.
    pose proof (Z.mul_succ_div_gt (2 * nu * 10 ^ Z.of_nat f + de) (2 * de))
      as Hgt.
    lia. }
  split_and!; try done; try apply Hbracket.
  - unfold toFixed. rewrite decide_False by lia.
    by rewrite Hnan, Hinf, Hbig, Hpt.
  - rewrite Hab. apply Forall_app. split; [|apply digits_of_digits].
    apply Forall_replicate. reflexivity.
Qed.

(** X24: [fmt] on a finite number below [10^21] in magnitude, with its default of
    two digits or with [1] to [100] digits given, shows an optional minus
    sign, at least one digit, the point and exactly that many digits; the
    digits are those of the integer nearest to the magnitude times
    [10^digits], the larger one in a tie, behind zeros that fill up. *)
Theorem fmt_shape (v : float) (digits : option nat) :
  is_finite v = true →
  (1e21 <=? abs v) = false →
  (0 < default 2 digits ≤ 100)%nat →
  ∃ a b z,
    fmt (Some v) digits
    = Some (String.append (if v <? 0 then "-" else "")
              (String.string_of_list_ascii (a ++ "."%char :: b)))
    ∧ a ≠ [] ∧ length b = default 2%nat digits
    ∧ Forall (λ c, is_decimal_digit c = true) (a ++ b)
    ∧ a ++ b
      = replicate z "0"%char
          ++ digits_of (nearest_scaled v (default 2%nat digits))
    ∧ (2 * (exact_magnitude v).2
         * Z.of_N (nearest_scaled v (default 2%nat digits))
       ≤ 2 * (exact_magnitude v).1 * 10 ^ Z.of_nat (default 2%nat digits)
         + (exact_magnitude v).2
       < 2 * (exact_magnitude v).2
           * (Z.of_N (nearest_scaled v (default 2%nat digits)) + 1))%Z.
Proof.
  intros Hfin Hbig Hd. unfold fmt. cbn [num default].
  change (Datatypes.id v) with v. by apply toFixed_shape.
Qed.

End Display.

Lemma fmt_shape_witness :
  is_finite 1.005 = true
  ∧ (1e21 <=? abs 1.005) = false
  ∧ @fmt small_numbers_host (Some 1.005) None = Some "1.00"
  ∧ ∃ a b z,
      @fmt small_numbers_host (Some 1.005) None
      = Some (String.append "" (String.string_of_list_ascii (a ++ "."%char :: b)))
      ∧ length b = 2%nat
      ∧ a ++ b = replicate z "0"%char ++ digits_of 100.
Proof.
  assert (Hfin : is_finite 1.005 = true) by reflexivity.
  assert (Hbig : (1e21 <=? abs 1.005) = false) by reflexivity.
  assert (Hd : (0 < default 2 (None : option nat) ≤ 100)%nat) by (cbn; lia).
  split; [exact Hfin|]. split; [exact Hbig|]. split; [by vm_compute|].
  destruct (@fmt_shape small_numbers_host 1.005 None Hfin Hbig Hd)
    as (a & b & z & Hfmt & _ & Hb & _ & Hab & _).
  exists a, b, z. split_and!; [exact Hfmt|exact Hb|exact Hab].
Defined.

Lemma clampResponse_saturates_witness :
  clampResponse 42.25 = 42.25 ∧ clampResponse 150 = 120
  ∧ clampResponse (-3.5) = 0.
Proof.
  split_and!.
  - by apply (proj1 (clampResponse_saturates 42.25)).
  - by apply (proj1 (proj2 (clampResponse_saturates 150))).
  - by apply (proj2 (proj2 (clampResponse_saturates (-3.5)))).
Defined.

Lemma missing_parameter_gives_NaN_witness :
  sample_Emax_params !! "a" = None
  ∧ fn AppJsx.Linear 1 sample_Emax_params = nan
  ∧ fn (@AppJsx.LogLinear ref_host) 1 sample_Emax_params = nan.
Proof.
  assert (Ha : sample_Emax_params !! "a" = None) by reflexivity.
  split; [exact Ha|].
  exact (proj1 (@missing_parameter_gives_NaN ref_host 1 sample_Emax_params) Ha).
Defined.
